(** * tiny_serial: the simulated line timer and its transmit drain

    A shallow embedding of [src/tty/tiny_serial.c] (the LDD3 "tiny serial"
    UART stub).  The driver functions are written in a small state-and-error
    monad over the part of kernel memory they touch; every call that leaves
    the driver (printk, the tty flip buffer, the timer wheel, the slab
    allocator, the serial core) is recorded, in program order, in the trace
    a run returns. *)

From Stdlib Require Import ZArith List String Ascii Lia Bool.
From stdpp Require Import gmap.
Import ListNotations.

Local Open Scope string_scope.
Local Open Scope list_scope.
Local Open Scope Z_scope.

(** ** Kernel configuration

    Constants the driver takes from kernel headers that are not part of the
    repository.  They stay parameters of the development. *)

Record kconfig := {
  HZ : Z;             (* scheduler ticks (jiffies) per second *)
  PAGE_SHIFT : Z;     (* PAGE_SIZE is 1UL << PAGE_SHIFT *)
  WAKEUP_CHARS : Z;   (* low-water mark of the serial core, 256 upstream *)
  BITS_PER_LONG : Z   (* width of unsigned long: jiffies, timer->expires *)
}.

Definition PAGE_SIZE (cfg : kconfig) : Z := Z.shiftl 1 (PAGE_SHIFT cfg).

(* serial_core.h: #define UART_XMIT_SIZE PAGE_SIZE *)
Definition UART_XMIT_SIZE (cfg : kconfig) : Z := PAGE_SIZE cfg.

(* #define DELAY_TIME HZ * 2 *)
Definition DELAY_TIME (cfg : kconfig) : Z := HZ cfg * 2.

(* #define TINY_DATA_CHARACTER 't' *)
Definition TINY_DATA_CHARACTER : ascii := "t"%char.

Definition ENOMEM : Z := 12.

(* unsigned arithmetic wraps *)
Definition u32 (x : Z) : Z := x mod 2 ^ 32.
Definition ulong (cfg : kconfig) (x : Z) : Z := x mod 2 ^ BITS_PER_LONG cfg.

(** ** Data model: the kernel structures, restricted to the fields read or
    written by the driver.  A pointer to a [uart_port] or a [timer_list] is
    an address (a [Z], 0 is NULL) into the corresponding store of [world];
    [port->state] and [state->port.tty] are held by value, [None] is NULL. *)

(* struct circ_buf { char *buf; int head; int tail; } *)
Record circ_buf := {
  buf : list Z;
  head : Z;
  tail : Z
}.

(* struct tty_struct: tty->port and the flow-control flag *)
Record tty_struct := {
  tty_port : Z;       (* address of the struct tty_port *)
  stopped : bool
}.

(* struct uart_state: state->port.tty and state->xmit *)
Record uart_state := {
  tty : option tty_struct;
  xmit : circ_buf
}.

(* struct uart_port; icount_tx is port->icount.tx, a __u32 *)
Record uart_port := {
  x_char : Z;
  fifosize : Z;
  icount_tx : Z;
  hw_stopped : bool;
  state : option uart_state
}.

(* the only callback ever stored in timer->function *)
Inductive timer_fn := fn_tiny_timer.

(* struct timer_list; [pending] is timer_pending(), i.e. the timer is linked
   into the timer wheel *)
Record timer_list := {
  data : Z;
  expires : Z;
  function : option timer_fn;
  pending : bool
}.

(* Kernel memory seen by the driver.  [timer] is the file-scope
   [static struct timer_list *timer]. *)
Record world := {
  ports : gmap Z uart_port;
  timers : gmap Z timer_list;
  timer : Z;
  jiffies : Z
}.

(** Calls leaving the driver, in program order. *)
Inductive event :=
| pr_enter_ev (func : string)            (* pr_notice("Enter: %s\n", __func__) *)
| pr_info_x_char (c : Z)                 (* pr_info("x_char wrote 0x%2x", ..) *)
| pr_info_xmit (c : Z)                   (* pr_info("xmit wrote 0x%2x", ..) *)
| ev_uart_write_wakeup (port : Z)
| ev_tty_insert_flip_char (tp : Z) (ch : ascii) (flag : Z)
| ev_tty_flip_buffer_push (tp : Z)
| ev_kmalloc (ret : Z)
| ev_kfree (p : Z)
| ev_init_timer (t : Z)
| ev_add_timer (t : Z) (expires : Z)
| ev_del_timer (t : Z)
| ev_uart_remove_one_port
| ev_uart_unregister_driver.

(** ** The monad: state, trace and kernel faults *)

Inductive fault :=
| null_deref            (* a NULL pointer was dereferenced *)
| wild_pointer          (* an address outside the store, or an index outside buf *)
| bug_on.               (* BUG_ON(timer_pending(timer)) in add_timer *)

Inductive res (A : Type) :=
| Ok (a : A) (w : world) (tr : list event)
| Oops (f : fault)
| OutOfFuel.

Arguments Ok {A} a w tr.
Arguments Oops {A} f.
Arguments OutOfFuel {A}.

Definition M (A : Type) : Type := world -> res A.

Definition ret {A} (a : A) : M A := fun w => Ok a w [].

Definition bind {A B} (m : M A) (f : A -> M B) : M B :=
  fun w =>
    match m w with
    | Ok a w1 tr1 =>
        match f a w1 with
        | Ok b w2 tr2 => Ok b w2 (tr1 ++ tr2)
        | Oops e => Oops e
        | OutOfFuel => OutOfFuel
        end
    | Oops e => Oops e
    | OutOfFuel => OutOfFuel
    end.

Notation "'let*' x ':=' m 'in' f" := (bind m (fun x => f))
  (at level 10, x name, m at level 100, f at level 200).
Notation "m '>>' f" := (bind m (fun _ => f))
  (at level 100, f at level 200, right associativity).

Definition oops {A} (e : fault) : M A := fun _ => Oops e.
Definition emit (e : event) : M unit := fun w => Ok tt w [e].
Definition get : M world := fun w => Ok w w [].
Definition put (w : world) : M unit := fun _ => Ok tt w [].

(* #define pr_enter() do { pr_notice("Enter: %s\n", __func__); } while (0) *)
Definition pr_enter (func : string) : M unit := emit (pr_enter_ev func).

Definition set_ports (w : world) (ps : gmap Z uart_port) : world :=
  {| ports := ps; timers := timers w; timer := timer w; jiffies := jiffies w |}.
Definition set_timers (w : world) (ts : gmap Z timer_list) : world :=
  {| ports := ports w; timers := ts; timer := timer w; jiffies := jiffies w |}.
Definition set_timer (w : world) (t : Z) : world :=
  {| ports := ports w; timers := timers w; timer := t; jiffies := jiffies w |}.

(** *** Memory accesses *)

(* *port *)
Definition read_port (port : Z) : M uart_port :=
  fun w =>
    if port =? 0 then Oops null_deref
    else match ports w !! port with
         | Some p => Ok p w []
         | None => Oops wild_pointer
         end.

Definition write_port (port : Z) (p : uart_port) : M unit :=
  let* _ := read_port port in
  let* w := get in
  put (set_ports w (<[port := p]> (ports w))).

(* *port->state *)
Definition read_state (port : Z) : M uart_state :=
  let* p := read_port port in
  match state p with
  | Some s => ret s
  | None => oops null_deref
  end.

Definition write_state (port : Z) (s : uart_state) : M unit :=
  let* p := read_port port in
  match state p with
  | Some _ =>
      write_port port {| x_char := x_char p; fifosize := fifosize p;
                         icount_tx := icount_tx p; hw_stopped := hw_stopped p;
                         state := Some s |}
  | None => oops null_deref
  end.

(* *xmit, where xmit = &port->state->xmit *)
Definition read_xmit (port : Z) : M circ_buf :=
  let* s := read_state port in ret (xmit s).

Definition write_xmit (port : Z) (c : circ_buf) : M unit :=
  let* s := read_state port in
  write_state port {| tty := tty s; xmit := c |}.

(* xmit->buf[i] *)
Definition read_buf (c : circ_buf) (i : Z) : M Z :=
  if i <? 0 then oops wild_pointer
  else match buf c !! Z.to_nat i with
       | Some ch => ret ch
       | None => oops wild_pointer
       end.

(* *t for a struct timer_list *t *)
Definition read_timer (t : Z) : M timer_list :=
  fun w =>
    if t =? 0 then Oops null_deref
    else match timers w !! t with
         | Some tl => Ok tl w []
         | None => Oops wild_pointer
         end.

Definition write_timer (t : Z) (tl : timer_list) : M unit :=
  let* _ := read_timer t in
  let* w := get in
  put (set_timers w (<[t := tl]> (timers w))).

(** ** Kernel interfaces used by the driver

    These functions live in the kernel, not in the repository; each is
    modelled by the part of its contract the driver relies on. *)

(* circ_buf.h: #define CIRC_CNT(head,tail,size) (((head) - (tail)) & ((size)-1)) *)
Definition CIRC_CNT (hd tl size : Z) : Z := Z.land (hd - tl) (size - 1).

(* serial_core.h: #define uart_circ_empty(circ) ((circ)->head == (circ)->tail) *)
Definition uart_circ_empty (c : circ_buf) : bool := head c =? tail c.

(* serial_core.h: #define uart_circ_chars_pending(circ)
     (CIRC_CNT((circ)->head, (circ)->tail, UART_XMIT_SIZE)) *)
Definition uart_circ_chars_pending (cfg : kconfig) (c : circ_buf) : Z :=
  CIRC_CNT (head c) (tail c) (UART_XMIT_SIZE cfg).

(* serial_core.h:
     struct tty_struct *tty = port->state->port.tty;
     if (tty->stopped || port->hw_stopped) return 1; return 0; *)
Definition uart_tx_stopped (port : Z) : M bool :=
  let* p := read_port port in
  let* s := read_state port in
  match tty s with
  | Some t => ret (stopped t || hw_stopped p)%bool
  | None => oops null_deref
  end.

Definition uart_write_wakeup (port : Z) : M unit :=
  emit (ev_uart_write_wakeup port).

Definition tty_insert_flip_char (tp : Z) (ch : ascii) (flag : Z) : M unit :=
  emit (ev_tty_insert_flip_char tp ch flag).

Definition tty_flip_buffer_push (tp : Z) : M unit :=
  emit (ev_tty_flip_buffer_push tp).

(* kmalloc either fails (NULL) or hands out an object whose contents are
   whatever the slab held.  [km] is what this call returns. *)
Definition kmalloc (km : option (Z * timer_list)) : M Z :=
  match km with
  | None => emit (ev_kmalloc 0) >> ret 0
  | Some (a, junk) =>
      emit (ev_kmalloc a) >>
      let* w := get in
      put (set_timers w (<[a := junk]> (timers w))) >>
      ret a
  end.

(* kfree(NULL) is a no-op *)
Definition kfree (p : Z) : M unit :=
  emit (ev_kfree p) >>
  if p =? 0 then ret tt
  else
    let* _ := read_timer p in
    let* w := get in
    put (set_timers w (delete p (timers w))).

(* init_timer marks the timer as not pending; data, expires and function
   are left as they are *)
Definition init_timer (t : Z) : M unit :=
  emit (ev_init_timer t) >>
  let* tl := read_timer t in
  write_timer t {| data := data tl; expires := expires tl;
                   function := function tl; pending := false |}.

(* add_timer: BUG_ON(timer_pending(timer)); then the timer is queued to
   fire at timer->expires *)
Definition add_timer (t : Z) : M unit :=
  let* tl := read_timer t in
  if pending tl then oops bug_on
  else
    emit (ev_add_timer t (expires tl)) >>
    write_timer t {| data := data tl; expires := expires tl;
                     function := function tl; pending := true |}.

(* del_timer tests timer_pending(timer), which reads through the pointer,
   and unlinks a pending timer; the object itself stays allocated *)
Definition del_timer (t : Z) : M unit :=
  emit (ev_del_timer t) >>
  let* tl := read_timer t in
  write_timer t {| data := data tl; expires := expires tl;
                   function := function tl; pending := false |}.

Definition uart_remove_one_port : M unit := emit ev_uart_remove_one_port.
Definition uart_unregister_driver : M unit := emit ev_uart_unregister_driver.

(** ** The driver: src/tty/tiny_serial.c *)

Section Driver.

Context (cfg : kconfig).

(* static void tiny_stop_tx(struct uart_port *port) *)
Definition tiny_stop_tx (port : Z) : M unit := pr_enter "tiny_stop_tx".

(* port->icount.tx++ *)
Definition icount_tx_incr (port : Z) : M unit :=
  let* p := read_port port in
  write_port port {| x_char := x_char p; fifosize := fifosize p;
                     icount_tx := u32 (icount_tx p + 1);
                     hw_stopped := hw_stopped p; state := state p |}.

(* port->x_char = c *)
Definition set_x_char (port : Z) (c : Z) : M unit :=
  let* p := read_port port in
  write_port port {| x_char := c; fifosize := fifosize p;
                     icount_tx := icount_tx p;
                     hw_stopped := hw_stopped p; state := state p |}.

(* xmit->tail = v *)
Definition set_xmit_tail (port : Z) (v : Z) : M unit :=
  let* c := read_xmit port in
  write_xmit port {| buf := buf c; head := head c; tail := v |}.

(* The do { ... } while (--count > 0) loop of tiny_tx_chars, lines 85-91.
   One unit of fuel is spent per iteration. *)
Fixpoint tx_loop (fuel : nat) (port : Z) (count : Z) : M unit :=
  match fuel with
  | O => fun _ => OutOfFuel
  | S fuel' =>
      let* c := read_xmit port in
      let* ch := read_buf c (tail c) in
      emit (pr_info_xmit ch) >>
      set_xmit_tail port (Z.land (tail c + 1) (UART_XMIT_SIZE cfg - 1)) >>
      icount_tx_incr port >>
      let* c := read_xmit port in
      if uart_circ_empty c then ret tt              (* break *)
      else
        let count := count - 1 in                   (* --count *)
        if count >? 0 then tx_loop fuel' port count
        else ret tt
  end.

(* static void tiny_tx_chars(struct uart_port *port) *)
Definition tiny_tx_chars (port : Z) : M unit :=
  let* _ := read_port port in             (* xmit = &port->state->xmit *)
  pr_enter "tiny_tx_chars" >>
  let* p := read_port port in
  if negb (x_char p =? 0) then
    emit (pr_info_x_char (x_char p)) >>
    icount_tx_incr port >>
    set_x_char port 0
  else
    let* c := read_xmit port in
    let* halt := (if uart_circ_empty c then ret true
                  else uart_tx_stopped port) in
    if halt then tiny_stop_tx port
    else
      let count := Z.shiftr (fifosize p) 1 in
      tx_loop (S (Z.to_nat count)) port count >>
      let* c := read_xmit port in
      (if uart_circ_chars_pending cfg c <? WAKEUP_CHARS cfg
       then uart_write_wakeup port else ret tt) >>
      let* c := read_xmit port in
      if uart_circ_empty c then tiny_stop_tx port else ret tt.

(* timer->expires = v, through the global pointer *)
Definition set_timer_expires (v : Z) : M unit :=
  let* w := get in
  let* tl := read_timer (timer w) in
  write_timer (timer w) {| data := data tl; expires := v;
                           function := function tl; pending := pending tl |}.

Definition set_timer_data (v : Z) : M unit :=
  let* w := get in
  let* tl := read_timer (timer w) in
  write_timer (timer w) {| data := v; expires := expires tl;
                           function := function tl; pending := pending tl |}.

Definition set_timer_function (f : timer_fn) : M unit :=
  let* w := get in
  let* tl := read_timer (timer w) in
  write_timer (timer w) {| data := data tl; expires := expires tl;
                           function := Some f; pending := pending tl |}.

(* static void tiny_timer(unsigned long data) *)
Definition tiny_timer (data : Z) : M unit :=
  pr_enter "tiny_timer" >>
  let port := data in
  if port =? 0 then ret tt
  else
    let* p := read_port port in
    match state p with
    | None => ret tt
    | Some s =>
        match tty s with
        | None => ret tt
        | Some tty =>
            let tp := tty_port tty in
            tty_insert_flip_char tp TINY_DATA_CHARACTER 0 >>
            tty_flip_buffer_push tp >>
            (* resubmit the timer again *)
            let* w := get in
            set_timer_expires (ulong cfg (jiffies w + DELAY_TIME cfg)) >>
            add_timer (timer w) >>
            (* see if we have any data to transmit *)
            tiny_tx_chars port
        end
    end.

(* static unsigned int tiny_tx_empty(struct uart_port *port) *)
Definition tiny_tx_empty (port : Z) : M Z :=
  pr_enter "tiny_tx_empty" >> ret 0.

(* static int tiny_startup(struct uart_port *port); [km] is the outcome of
   the kmalloc call on line 224, should it be reached *)
Definition tiny_startup (km : option (Z * timer_list)) (port : Z) : M Z :=
  pr_enter "tiny_startup" >>
  let* w := get in
  let* failed :=
    (if timer w =? 0 then
       let* t := kmalloc km in
       let* w := get in
       put (set_timer w t) >>
       ret (t =? 0)
     else ret false) in
  if failed then ret (- ENOMEM)
  else
    let* w := get in
    init_timer (timer w) >>
    set_timer_data port >>
    set_timer_expires (ulong cfg (jiffies w + DELAY_TIME cfg)) >>
    set_timer_function fn_tiny_timer >>
    add_timer (timer w) >>
    ret 0.

(* static void tiny_shutdown(struct uart_port *port) *)
Definition tiny_shutdown (port : Z) : M unit :=
  pr_enter "tiny_shutdown" >>
  let* w := get in
  del_timer (timer w).

(* static void __exit tiny_exit(void) *)
Definition tiny_exit : M unit :=
  uart_remove_one_port >>
  uart_unregister_driver >>
  let* w := get in
  if timer w =? 0                      (* if (!timer) *)
  then kfree (timer w)
  else ret tt.

End Driver.

(** ** The driver, continued: the remaining callbacks and module init *)

(* static void tiny_stop_rx(struct uart_port *port) *)
Definition tiny_stop_rx (port : Z) : M unit := pr_enter "tiny_stop_rx".

(* static void tiny_enable_ms(struct uart_port *port) *)
Definition tiny_enable_ms (port : Z) : M unit := pr_enter "tiny_enable_ms".

(* static void tiny_start_tx(struct uart_port *port) *)
Definition tiny_start_tx (port : Z) : M unit := pr_enter "tiny_start_tx".

(* static unsigned int tiny_get_mctrl(struct uart_port *port) *)
Definition tiny_get_mctrl (port : Z) : M Z :=
  pr_enter "tiny_get_mctrl" >> ret 0.

(* static void tiny_set_mctrl(struct uart_port *port, unsigned int mctrl) *)
Definition tiny_set_mctrl (port : Z) (mctrl : Z) : M unit :=
  pr_enter "tiny_set_mctrl".

(* static void tiny_break_ctl(struct uart_port *port, int break_state) *)
Definition tiny_break_ctl (port : Z) (break_state : Z) : M unit :=
  pr_enter "tiny_break_ctl".

(* static const char *tiny_type(struct uart_port *port) *)
Definition tiny_type (port : Z) : M string :=
  pr_enter "tiny_type" >> ret "tinytty".

(* static void tiny_release_port(struct uart_port *port) *)
Definition tiny_release_port (port : Z) : M unit := pr_enter "tiny_release_port".

(* static int tiny_request_port(struct uart_port *port) *)
Definition tiny_request_port (port : Z) : M Z :=
  pr_enter "tiny_request_port" >> ret 0.

(* static void tiny_config_port(struct uart_port *port, int flags) *)
Definition tiny_config_port (port : Z) (flags : Z) : M unit :=
  pr_enter "tiny_config_port".

(* static int tiny_verify_port(struct uart_port *port, struct serial_struct *ser) *)
Definition tiny_verify_port (port : Z) (ser : Z) : M Z :=
  pr_enter "tiny_verify_port" >> ret 0.

(** [tiny_set_termios] and [tiny_init] touch no driver state: all they do
    is print and call into the serial core.  Each is written as the list
    of those calls, in program order, given what the core answers. *)

(* the c_cflag masks of termbits.h, not part of the repository *)
Record termbits := {
  CSIZE : Z; CS5 : Z; CS6 : Z; CS7 : Z; CS8 : Z;
  CSTOPB : Z; PARENB : Z; PARODD : Z; CRTSCTS : Z
}.

Inductive parity := parity_none | parity_even | parity_odd.

Inductive termios_ev :=
| st_pr_enter (func : string)
| st_data_bits (n : Z)                  (* printk(KERN_DEBUG " - data bits = n") *)
| st_parity (p : parity)                (* pr_info(" - parity = ...") *)
| st_stop_bits (n : Z)                  (* pr_info(" - stop bits = n") *)
| st_rts_cts (enabled : bool)           (* pr_info(" - RTS/CTS is ...") *)
| st_uart_get_baud_rate (min max : Z)
| st_warn_baud_0                        (* pr_warn("get baud rate 0") *)
| st_uart_get_divisor (baud : Z).

(* static void tiny_set_termios(struct uart_port *port,
                                struct ktermios *new, struct ktermios *old);
   [uartclk] is port->uartclk, [c_cflag] is new->c_cflag and [baud] is what
   uart_get_baud_rate returns *)
Definition tiny_set_termios (tb : termbits) (uartclk c_cflag : Z) (baud : Z)
  : list termios_ev :=
  let cflag := c_cflag in
  [st_pr_enter "tiny_set_termios"] ++
  (* get the byte size *)
  (let sz := Z.land cflag (CSIZE tb) in
   if sz =? CS5 tb then [st_data_bits 5]
   else if sz =? CS6 tb then [st_data_bits 6]
   else if sz =? CS7 tb then [st_data_bits 7]
   else [st_data_bits 8]) ++
  (* determine the parity *)
  (if negb (Z.land cflag (PARENB tb) =? 0) then
     if negb (Z.land cflag (PARODD tb) =? 0) then [st_parity parity_odd]
     else [st_parity parity_even]
   else [st_parity parity_none]) ++
  (* figure out the stop bits requested *)
  (if negb (Z.land cflag (CSTOPB tb) =? 0) then [st_stop_bits 2]
   else [st_stop_bits 1]) ++
  (* figure out the flow control settings *)
  (if negb (Z.land cflag (CRTSCTS tb) =? 0) then [st_rts_cts true]
   else [st_rts_cts false]) ++
  (* Set baud rate *)
  [st_uart_get_baud_rate 0 (uartclk / 16)] ++
  (if baud =? 0 then [st_warn_baud_0]
   else [st_uart_get_divisor baud]).

Inductive init_ev :=
| in_printk_loaded                      (* "Tiny serial driver loaded" *)
| in_uart_register_driver
| in_warn_register_failed               (* "uart_register_driver failed." *)
| in_uart_add_one_port
| in_warn_add_one_port_failed           (* "uart_add_one_port failed." *)
| in_uart_unregister_driver.

(* static int __init tiny_init(void); [reg] and [add] are what
   uart_register_driver and uart_add_one_port return *)
Definition tiny_init (reg add : Z) : Z * list init_ev :=
  let result := reg in
  if negb (result =? 0) then
    (result,
     [in_printk_loaded; in_uart_register_driver; in_warn_register_failed])
  else
    let result := add in
    (result,
     [in_printk_loaded; in_uart_register_driver; in_uart_add_one_port] ++
     (if negb (result =? 0)
      then [in_warn_add_one_port_failed; in_uart_unregister_driver]
      else [])).

(** ** Vocabulary of the statements *)

(* [port] points to the struct [p] in [w] *)
Definition points_to (w : world) (port : Z) (p : uart_port) : Prop :=
  port <> 0 /\ ports w !! port = Some p.

(* [t] points to the timer object [tl] in [w] *)
Definition timer_at (w : world) (t : Z) (tl : timer_list) : Prop :=
  t <> 0 /\ timers w !! t = Some tl.

(* the world after *port = p *)
Definition upd (w : world) (port : Z) (p : uart_port) : world :=
  set_ports w (<[port := p]> (ports w)).

(* the world after *t = tl *)
Definition updt (w : world) (t : Z) (tl : timer_list) : world :=
  set_timers w (<[t := tl]> (timers w)).

Definition with_state (p : uart_port) (s : uart_state) : uart_port :=
  {| x_char := x_char p; fifosize := fifosize p; icount_tx := icount_tx p;
     hw_stopped := hw_stopped p; state := Some s |}.

Definition with_xmit (s : uart_state) (c : circ_buf) : uart_state :=
  {| tty := tty s; xmit := c |}.

Definition with_tail (c : circ_buf) (v : Z) : circ_buf :=
  {| buf := buf c; head := head c; tail := v |}.

Definition with_tx (p : uart_port) (v : Z) : uart_port :=
  {| x_char := x_char p; fifosize := fifosize p; icount_tx := v;
     hw_stopped := hw_stopped p; state := state p |}.

Definition with_x_char (p : uart_port) (v : Z) : uart_port :=
  {| x_char := v; fifosize := fifosize p; icount_tx := icount_tx p;
     hw_stopped := hw_stopped p; state := state p |}.

(** *** The ring buffer *)

(* the invariant the serial core keeps on port->state->xmit *)
Definition wf_xmit (cfg : kconfig) (c : circ_buf) : Prop :=
  0 <= PAGE_SHIFT cfg /\
  0 <= head c < UART_XMIT_SIZE cfg /\
  0 <= tail c < UART_XMIT_SIZE cfg /\
  Z.of_nat (length (buf c)) = UART_XMIT_SIZE cfg.

(* the port after [r] bytes left the ring: the consuming index moved [r]
   places round the ring and the counter went up by [r] *)
Definition drain_port (cfg : kconfig) (p : uart_port) (r : Z) : uart_port :=
  {| x_char := x_char p; fifosize := fifosize p;
     icount_tx := u32 (icount_tx p + r);
     hw_stopped := hw_stopped p;
     state :=
       match state p with
       | Some s =>
           Some (with_xmit s (with_tail (xmit s)
                   ((tail (xmit s) + r) mod UART_XMIT_SIZE cfg)))
       | None => None
       end |}.

(* the [k] bytes at the consuming end of the ring, oldest first *)
Fixpoint sent (cfg : kconfig) (c : circ_buf) (k : nat) : list Z :=
  match k with
  | O => []
  | S k' =>
      nth (Z.to_nat (tail c)) (buf c) 0
        :: sent cfg (with_tail c ((tail c + 1) mod UART_XMIT_SIZE cfg)) k'
  end.

(* number of bytes one run of the loop sends *)
Definition drain_len (cfg : kconfig) (p : uart_port) (s : uart_state) : Z :=
  Z.min (uart_circ_chars_pending cfg (xmit s))
        (Z.max 1 (Z.shiftr (fifosize p) 1)).

(** *** The timer *)

Definition with_pending (tl : timer_list) (b : bool) : timer_list :=
  {| data := data tl; expires := expires tl; function := function tl;
     pending := b |}.

Definition with_expires (tl : timer_list) (v : Z) : timer_list :=
  {| data := data tl; expires := v; function := function tl;
     pending := pending tl |}.

(* the timer object as tiny_startup leaves it *)
Definition armed (cfg : kconfig) (port now : Z) : timer_list :=
  {| data := port; expires := ulong cfg (now + DELAY_TIME cfg);
     function := Some fn_tiny_timer; pending := true |}.

(* the trace of the first half of a firing on a live port *)
Definition rx_prefix (cfg : kconfig) (w : world) (tp : Z) : list event :=
  [pr_enter_ev "tiny_timer";
   ev_tty_insert_flip_char tp TINY_DATA_CHARACTER 0;
   ev_tty_flip_buffer_push tp;
   ev_add_timer (timer w) (ulong cfg (jiffies w + DELAY_TIME cfg))].

(* the world after [timer = kmalloc(...)] returned the fresh object [a] *)
Definition allocated (w : world) (a : Z) (junk : timer_list) : world :=
  set_timer (set_timers w (<[a := junk]> (timers w))) a.

(* a port that is open: state and tty attached, ring well formed *)
Definition live (cfg : kconfig) (p : uart_port) : Prop :=
  exists s t, state p = Some s /\ tty s = Some t /\ wf_xmit cfg (xmit s).

(** *** The timer wheel

    The kernel side of a firing (expire_timers and call_timer_fn in
    kernel/time/timer.c): once jiffies has reached timer->expires the timer
    is unlinked and its function is called with its data.  [now] is the
    value of jiffies at that moment. *)

Definition set_jiffies (w : world) (j : Z) : world :=
  {| ports := ports w; timers := timers w; timer := timer w; jiffies := j |}.

Definition expire_timer (cfg : kconfig) (now : Z) : M unit :=
  let* w := get in
  let* tl := read_timer (timer w) in
  if pending tl then
    put (set_jiffies w now) >>
    write_timer (timer w) (with_pending tl false) >>
    match function tl with
    | Some fn_tiny_timer => tiny_timer cfg (data tl)
    | None => oops null_deref
    end
  else ret tt.

(* one expiry after the other, at the given times *)
Fixpoint expirations (cfg : kconfig) (nows : list Z) : M unit :=
  match nows with
  | [] => ret tt
  | now :: rest => expire_timer cfg now >> expirations cfg rest
  end.

(* the port at [port] is open and the timer is queued for it *)
Definition running (cfg : kconfig) (w : world) (port : Z) : Prop :=
  exists p tl,
    points_to w port p /\ live cfg p /\
    timer_at w (timer w) tl /\ pending tl = true /\
    function tl = Some fn_tiny_timer /\ data tl = port.

(* a computation that never runs out of fuel: it returns or it faults *)
Definition terminates {A} (m : M A) : Prop := forall w, m w <> OutOfFuel.

(** *** Observations on traces *)

Definition is_wakeup (e : event) : bool :=
  match e with ev_uart_write_wakeup _ => true | _ => false end.

Definition is_xmit_wrote (e : event) : bool :=
  match e with pr_info_xmit _ => true | _ => false end.

(* calls into the receive path: the injection and its flush *)
Definition is_rx (e : event) : bool :=
  match e with
  | ev_tty_insert_flip_char _ _ _ | ev_tty_flip_buffer_push _ => true
  | _ => false
  end.

(* a character handed to the receive path *)
Definition is_inject (e : event) : bool :=
  match e with ev_tty_insert_flip_char _ _ _ => true | _ => false end.

Definition is_kfree (e : event) : bool :=
  match e with ev_kfree _ => true | _ => false end.

Definition is_add_timer (e : event) : bool :=
  match e with ev_add_timer _ _ => true | _ => false end.

(* what the transmit drain may emit *)
Definition is_tx_event (e : event) : bool :=
  match e with
  | pr_enter_ev _ | pr_info_x_char _ | pr_info_xmit _ | ev_uart_write_wakeup _ => true
  | _ => false
  end.

Definition count_ev (f : event -> bool) (tr : list event) : nat :=
  length (List.filter f tr).

(* bytes pending in the ring of the port at [port], if there is one *)
Definition pending_at (cfg : kconfig) (w : world) (port : Z) : option Z :=
  match ports w !! port with
  | Some p =>
      match state p with
      | Some s => Some (uart_circ_chars_pending cfg (xmit s))
      | None => None
      end
  | None => None
  end.

(** *** Concrete machines *)

(* the scenario of the specification: a ring of 16 with low-water mark 4 *)
Definition cfg16 : kconfig :=
  {| HZ := 100; PAGE_SHIFT := 4; WAKEUP_CHARS := 4; BITS_PER_LONG := 64 |}.

Definition port_addr : Z := 4096.
Definition timer_addr : Z := 8192.

Definition ring16 : list Z :=
  [97; 98; 99; 100; 101; 102; 103; 104; 105; 106; 107; 108; 109; 110; 111; 112].

Definition tty0 : tty_struct := {| tty_port := 12288; stopped := false |}.

Definition mk_port (xc fifo : Z) (hd tl : Z) : uart_port :=
  {| x_char := xc; fifosize := fifo; icount_tx := 0; hw_stopped := false;
     state := Some {| tty := Some tty0;
                      xmit := {| buf := ring16; head := hd; tail := tl |} |} |}.

(* 10 bytes queued, fifosize 16 *)
Definition scenario_port : uart_port := mk_port 0 16 10 0.

(* the module is loaded, nothing was opened yet: the global timer is NULL *)
Definition boot (p : uart_port) : world :=
  {| ports := {[ port_addr := p ]}; timers := ∅; timer := 0; jiffies := 1000 |}.

Definition scenario_world : world := boot scenario_port.

Definition junk_timer : timer_list :=
  {| data := 57005; expires := 48879; function := None; pending := true |}.

(* the timer object exists and is not queued *)
Definition idle_timer : timer_list :=
  {| data := port_addr; expires := 1200; function := Some fn_tiny_timer;
     pending := false |}.

Definition opened (p : uart_port) : world :=
  {| ports := {[ port_addr := p ]}; timers := {[ timer_addr := idle_timer ]};
     timer := timer_addr; jiffies := 1200 |}.

(* a port whose state or tty went away *)
Definition port_no_state : uart_port :=
  {| x_char := 0; fifosize := 16; icount_tx := 0; hw_stopped := false;
     state := None |}.

Definition port_no_tty : uart_port :=
  {| x_char := 0; fifosize := 16; icount_tx := 0; hw_stopped := false;
     state := Some {| tty := None;
                      xmit := {| buf := ring16; head := 10; tail := 0 |} |} |}.

(** *** Sequences of calls *)

(* [k] calls of the drain in a row *)
Fixpoint drains (cfg : kconfig) (port : Z) (k : nat) : M unit :=
  match k with
  | O => ret tt
  | S k' => tiny_tx_chars cfg port >> drains cfg port k'
  end.

(* close and reopen, once per element: tiny_shutdown then tiny_startup on
   the given port, with the given kmalloc outcome; the value is the list
   of what the startups returned *)
Fixpoint reopen_cycles (cfg : kconfig)
    (cs : list (option (Z * timer_list) * Z)) : M (list Z) :=
  match cs with
  | [] => ret []
  | (km, port) :: rest =>
      tiny_shutdown port >>
      let* r := tiny_startup cfg km port in
      let* rs := reopen_cycles cfg rest in
      ret (r :: rs)
  end.

(* a start that is tried again after it failed *)
Definition startup_twice (cfg : kconfig)
    (km1 km2 : option (Z * timer_list)) (port : Z) : M (Z * Z) :=
  let* r1 := tiny_startup cfg km1 port in
  let* r2 := tiny_startup cfg km2 port in
  ret (r1, r2).

(* the port of the last cycle, [port0] if there is none *)
Definition last_port (cs : list (option (Z * timer_list) * Z)) (port0 : Z) : Z :=
  List.last (map snd cs) port0.

(* the bytes of the ring at tail, tail + 1, ..., tail + k - 1, indices taken
   modulo the capacity *)
Definition ring_bytes (cfg : kconfig) (c : circ_buf) (k : nat) : list Z :=
  map (fun i => nth (Z.to_nat ((tail c + Z.of_nat i) mod UART_XMIT_SIZE cfg))
                    (buf c) 0)
      (seq 0 k).

Definition is_kmalloc (e : event) : bool :=
  match e with ev_kmalloc _ => true | _ => false end.

Definition is_x_char_wrote (e : event) : bool :=
  match e with pr_info_x_char _ => true | _ => false end.

(* the entry notice of tiny_stop_tx *)
Definition is_stop_tx (e : event) : bool :=
  match e with
  | pr_enter_ev f => String.eqb f "tiny_stop_tx"
  | _ => false
  end.

Definition is_st_parity (e : termios_ev) : bool :=
  match e with st_parity _ => true | _ => false end.

Definition is_divisor (e : termios_ev) : bool :=
  match e with st_uart_get_divisor _ => true | _ => false end.

(* asm-generic/termbits.h *)
Definition generic_termbits : termbits :=
  {| CSIZE := 48; CS5 := 0; CS6 := 16; CS7 := 32; CS8 := 48;
     CSTOPB := 64; PARENB := 256; PARODD := 512; CRTSCTS := 2147483648 |}.

(* #define TINY_CLOCK 3672000 *)
Definition TINY_CLOCK : Z := 3672000.

(* the timer is queued for the port: the world after a successful start *)
Definition started (p : uart_port) : world :=
  {| ports := {[ port_addr := p ]};
     timers := {[ timer_addr := armed cfg16 port_addr 1200 ]};
     timer := timer_addr; jiffies := 1200 |}.

(* transmission stopped by the upper layer *)
Definition port_stopped : uart_port :=
  {| x_char := 0; fifosize := 16; icount_tx := 0; hw_stopped := false;
     state := Some {| tty := Some {| tty_port := 12288; stopped := true |};
                      xmit := {| buf := ring16; head := 10; tail := 0 |} |} |}.

(** ** Runs of the memory accesses *)

Lemma bind_Ok {A B} (m : M A) (f : A -> M B) w a w1 tr1 :
  m w = Ok a w1 tr1 ->
  bind m f w = match f a w1 with
               | Ok b w2 tr2 => Ok b w2 (tr1 ++ tr2)
               | Oops e => Oops e
               | OutOfFuel => OutOfFuel
               end.
Proof. intros H. unfold bind. now rewrite H. Qed.

Lemma bind_Ok_nil {A B} (m : M A) (f : A -> M B) w a w1 :
  m w = Ok a w1 [] -> bind m f w = f a w1.
Proof.
  intros H. rewrite (bind_Ok _ _ _ _ _ _ H).
  destruct (f a w1); reflexivity.
Qed.

Lemma points_to_upd w port p p' :
  points_to w port p -> points_to (upd w port p') port p'.
Proof.
  intros [Hn _]. split; [exact Hn|]. simpl. apply lookup_insert_eq.
Qed.

Lemma upd_upd w port p1 p2 : upd (upd w port p1) port p2 = upd w port p2.
Proof. unfold upd, set_ports. simpl. now rewrite insert_insert_eq. Qed.

Lemma upd_same w port p : points_to w port p -> upd w port p = w.
Proof.
  intros [_ H]. destruct w. unfold upd, set_ports. simpl in *.
  now rewrite insert_id.
Qed.

Lemma timer_at_updt w t tl tl' :
  timer_at w t tl -> timer_at (updt w t tl') t tl'.
Proof.
  intros [Hn _]. split; [exact Hn|]. simpl. apply lookup_insert_eq.
Qed.

Lemma updt_updt w t tl1 tl2 : updt (updt w t tl1) t tl2 = updt w t tl2.
Proof. unfold updt, set_timers. simpl. now rewrite insert_insert_eq. Qed.

Lemma updt_same w t tl : timer_at w t tl -> updt w t tl = w.
Proof.
  intros [_ H]. destruct w. unfold updt, set_timers. simpl in *.
  now rewrite insert_id.
Qed.

Lemma read_port_ok w port p :
  points_to w port p -> read_port port w = Ok p w [].
Proof.
  intros [Hn Hl]. unfold read_port.
  destruct (Z.eqb_spec port 0) as [->|_]; [contradiction|].
  now rewrite Hl.
Qed.

Lemma write_port_ok w port p p' :
  points_to w port p -> write_port port p' w = Ok tt (upd w port p') [].
Proof.
  intros H. unfold write_port.
  rewrite (bind_Ok_nil _ _ _ _ _ (read_port_ok _ _ _ H)).
  reflexivity.
Qed.

Lemma read_state_ok w port p s :
  points_to w port p -> state p = Some s -> read_state port w = Ok s w [].
Proof.
  intros H Hs. unfold read_state.
  rewrite (bind_Ok_nil _ _ _ _ _ (read_port_ok _ _ _ H)).
  now rewrite Hs.
Qed.

Lemma write_state_ok w port p s s' :
  points_to w port p -> state p = Some s ->
  write_state port s' w = Ok tt (upd w port (with_state p s')) [].
Proof.
  intros H Hs. unfold write_state.
  rewrite (bind_Ok_nil _ _ _ _ _ (read_port_ok _ _ _ H)).
  rewrite Hs. now apply write_port_ok with (p := p).
Qed.

Lemma read_xmit_ok w port p s :
  points_to w port p -> state p = Some s ->
  read_xmit port w = Ok (xmit s) w [].
Proof.
  intros H Hs. unfold read_xmit.
  now rewrite (bind_Ok_nil _ _ _ _ _ (read_state_ok _ _ _ _ H Hs)).
Qed.

Lemma set_xmit_tail_ok w port p s v :
  points_to w port p -> state p = Some s ->
  set_xmit_tail port v w =
  Ok tt (upd w port (with_state p (with_xmit s (with_tail (xmit s) v)))) [].
Proof.
  intros H Hs. unfold set_xmit_tail.
  rewrite (bind_Ok_nil _ _ _ _ _ (read_xmit_ok _ _ _ _ H Hs)).
  unfold write_xmit.
  rewrite (bind_Ok_nil _ _ _ _ _ (read_state_ok _ _ _ _ H Hs)).
  now apply write_state_ok with (s := s).
Qed.

Lemma icount_tx_incr_ok w port p :
  points_to w port p ->
  icount_tx_incr port w = Ok tt (upd w port (with_tx p (u32 (icount_tx p + 1)))) [].
Proof.
  intros H. unfold icount_tx_incr.
  rewrite (bind_Ok_nil _ _ _ _ _ (read_port_ok _ _ _ H)).
  now apply write_port_ok with (p := p).
Qed.

Lemma set_x_char_ok w port p v :
  points_to w port p ->
  set_x_char port v w = Ok tt (upd w port (with_x_char p v)) [].
Proof.
  intros H. unfold set_x_char.
  rewrite (bind_Ok_nil _ _ _ _ _ (read_port_ok _ _ _ H)).
  now apply write_port_ok with (p := p).
Qed.

Lemma read_timer_ok w t tl :
  timer_at w t tl -> read_timer t w = Ok tl w [].
Proof.
  intros [Hn Hl]. unfold read_timer.
  destruct (Z.eqb_spec t 0) as [->|_]; [contradiction|].
  now rewrite Hl.
Qed.

Lemma write_timer_ok w t tl tl' :
  timer_at w t tl -> write_timer t tl' w = Ok tt (updt w t tl') [].
Proof.
  intros H. unfold write_timer.
  rewrite (bind_Ok_nil _ _ _ _ _ (read_timer_ok _ _ _ H)).
  reflexivity.
Qed.

(** ** The ring buffer and the transmit loop *)

Section Ring.

Context (cfg : kconfig).

Lemma mod_range_cases x n :
  0 < n -> - n <= x < 2 * n ->
  x mod n = if x <? 0 then x + n else if x <? n then x else x - n.
Proof.
  intros Hn Hx.
  destruct (Z.ltb_spec x 0); [|destruct (Z.ltb_spec x n)]; symmetry.
  - apply Z.mod_unique with (q := -1); lia.
  - apply Z.mod_unique with (q := 0); lia.
  - apply Z.mod_unique with (q := 1); lia.
Qed.

Lemma xmit_size_pow : 0 <= PAGE_SHIFT cfg -> UART_XMIT_SIZE cfg = 2 ^ PAGE_SHIFT cfg.
Proof. intros H. unfold UART_XMIT_SIZE, PAGE_SIZE. now rewrite Z.shiftl_1_l. Qed.

Lemma xmit_size_pos : 0 <= PAGE_SHIFT cfg -> 0 < UART_XMIT_SIZE cfg.
Proof. intros H. rewrite xmit_size_pow by assumption. lia. Qed.

Lemma land_mask x :
  0 <= PAGE_SHIFT cfg ->
  Z.land x (UART_XMIT_SIZE cfg - 1) = x mod UART_XMIT_SIZE cfg.
Proof.
  intros H. rewrite xmit_size_pow by assumption.
  rewrite <- Z.land_ones by assumption.
  now rewrite Z.ones_equiv, <- Z.sub_1_r.
Qed.

Lemma pending_mod c :
  0 <= PAGE_SHIFT cfg ->
  uart_circ_chars_pending cfg c = (head c - tail c) mod UART_XMIT_SIZE cfg.
Proof. intros H. unfold uart_circ_chars_pending, CIRC_CNT. now apply land_mask. Qed.

Lemma pending_range c :
  0 <= PAGE_SHIFT cfg ->
  0 <= uart_circ_chars_pending cfg c < UART_XMIT_SIZE cfg.
Proof.
  intros H. rewrite pending_mod by assumption.
  apply Z.mod_pos_bound. now apply xmit_size_pos.
Qed.

Lemma pending_zero_iff c :
  wf_xmit cfg c ->
  uart_circ_chars_pending cfg c = 0 <-> head c = tail c.
Proof.
  intros (Hk & Hh & Ht & _). rewrite pending_mod by assumption.
  pose proof (xmit_size_pos Hk).
  rewrite mod_range_cases by lia.
  destruct (Z.ltb_spec (head c - tail c) 0);
    [|destruct (Z.ltb_spec (head c - tail c) (UART_XMIT_SIZE cfg))]; lia.
Qed.

(* one byte leaves the ring *)
Lemma ring_step c :
  wf_xmit cfg c ->
  1 <= uart_circ_chars_pending cfg c ->
  let c' := with_tail c ((tail c + 1) mod UART_XMIT_SIZE cfg) in
  wf_xmit cfg c' /\
  uart_circ_chars_pending cfg c' = uart_circ_chars_pending cfg c - 1.
Proof.
  intros (Hk & Hh & Ht & Hl) Hn c'. pose proof (xmit_size_pos Hk) as Hs.
  assert (Ht' : 0 <= tail c' < UART_XMIT_SIZE cfg)
    by (simpl; apply Z.mod_pos_bound; lia).
  split; [repeat split; simpl in *; lia|].
  rewrite !pending_mod in * by assumption.
  simpl in *.
  rewrite (mod_range_cases (tail c + 1)) in * by lia.
  rewrite (mod_range_cases (head c - tail c)) in Hn |- * by lia.
  destruct (Z.ltb_spec (tail c + 1) 0); [lia|].
  destruct (Z.ltb_spec (tail c + 1) (UART_XMIT_SIZE cfg));
    rewrite mod_range_cases by lia;
    repeat match goal with
           | |- context [?a <? ?b] => destruct (Z.ltb_spec a b)
           | H : context [?a <? ?b] |- _ => destruct (Z.ltb_spec a b)
           end; lia.
Qed.

Lemma drain_port_add p a b :
  0 <= PAGE_SHIFT cfg ->
  drain_port cfg (drain_port cfg p a) b = drain_port cfg p (a + b).
Proof.
  intros Hk. pose proof (xmit_size_pos Hk).
  unfold drain_port, u32. simpl.
  rewrite Zplus_mod_idemp_l, Z.add_assoc.
  destruct (state p) as [s|]; simpl; [|reflexivity].
  unfold with_xmit, with_tail. simpl.
  now rewrite Zplus_mod_idemp_l, Z.add_assoc.
Qed.

Lemma drain_port_state p r s :
  state p = Some s ->
  state (drain_port cfg p r) =
  Some (with_xmit s (with_tail (xmit s)
          ((tail (xmit s) + r) mod UART_XMIT_SIZE cfg))).
Proof. intros Hs. simpl. now rewrite Hs. Qed.

Lemma read_buf_ok c w :
  wf_xmit cfg c ->
  read_buf c (tail c) w = Ok (nth (Z.to_nat (tail c)) (buf c) 0) w [].
Proof.
  intros (Hk & _ & Ht & Hl). unfold read_buf.
  destruct (Z.ltb_spec (tail c) 0); [lia|].
  destruct (buf c !! Z.to_nat (tail c)) as [ch|] eqn:E.
  - now rewrite (nth_lookup_Some _ _ 0 _ E).
  - apply lookup_ge_None in E. lia.
Qed.

(* the loop of tiny_tx_chars: given fuel for max(1, count) iterations it
   sends min(pending, max(1, count)) bytes *)
Lemma tx_loop_spec fuel : forall port count w p s,
  points_to w port p -> state p = Some s -> wf_xmit cfg (xmit s) ->
  1 <= uart_circ_chars_pending cfg (xmit s) ->
  Z.max 1 count <= Z.of_nat fuel ->
  tx_loop cfg fuel port count w =
  Ok tt
     (upd w port (drain_port cfg p
        (Z.min (uart_circ_chars_pending cfg (xmit s)) (Z.max 1 count))))
     (map pr_info_xmit
        (sent cfg (xmit s)
           (Z.to_nat (Z.min (uart_circ_chars_pending cfg (xmit s))
                            (Z.max 1 count))))).
Proof.
  induction fuel as [|fuel IH]; intros port count w p s Hp Hs Hwf Hn Hf; [lia|].
  destruct (ring_step _ Hwf Hn) as [Hwf1 Hn1].
  pose proof Hwf as (Hk & _).
  set (n := uart_circ_chars_pending cfg (xmit s)) in *.
  set (c1 := with_tail (xmit s) ((tail (xmit s) + 1) mod UART_XMIT_SIZE cfg)) in *.
  set (p1 := drain_port cfg p 1).
  assert (Hs1 : state p1 = Some (with_xmit s c1))
    by (apply drain_port_state; exact Hs).
  cbn [tx_loop].
  rewrite (bind_Ok_nil _ _ _ _ _ (read_xmit_ok _ _ _ _ Hp Hs)).
  rewrite (bind_Ok_nil _ _ _ _ _ (read_buf_ok _ _ Hwf)).
  rewrite (bind_Ok _ _ _ _ _ _ (eq_refl : emit _ w = Ok tt w [_])).
  rewrite (bind_Ok_nil _ _ _ _ _ (set_xmit_tail_ok _ _ _ _ _ Hp Hs)).
  rewrite (bind_Ok_nil _ _ _ _ _
             (icount_tx_incr_ok _ _ _ (points_to_upd _ _ _ _ Hp))).
  rewrite upd_upd, land_mask by assumption.
  replace (with_tx _ _) with p1
    by (unfold p1, drain_port; simpl; now rewrite Hs).
  pose proof (points_to_upd w port p p1 Hp) as Hp1.
  rewrite (bind_Ok_nil _ _ _ _ _ (read_xmit_ok _ _ _ _ Hp1 Hs1)).
  cbn [xmit with_xmit].
  assert (Hsent : forall k, (0 < k)%nat ->
            sent cfg (xmit s) k =
            nth (Z.to_nat (tail (xmit s))) (buf (xmit s)) 0
              :: sent cfg c1 (pred k))
    by (intros [|k] Hk0; [lia|reflexivity]).
  destruct (uart_circ_empty c1) eqn:He.
  - (* the ring ran empty: break *)
    apply Z.eqb_eq in He.
    apply (pending_zero_iff _ Hwf1) in He.
    replace (Z.min n (Z.max 1 count)) with 1 by lia.
    reflexivity.
  - apply Z.eqb_neq in He.
    assert (Hn1' : 1 <= uart_circ_chars_pending cfg c1).
    { pose proof (pending_range c1 Hk).
      pose proof (proj1 (pending_zero_iff _ Hwf1)). lia. }
    destruct (Z.gtb_spec (count - 1) 0) as [Hc|Hc].
    + specialize (IH port (count - 1) (upd w port p1) p1 (with_xmit s c1)
                     Hp1 Hs1 Hwf1 Hn1' ltac:(lia)).
      cbn [xmit with_xmit] in IH. rewrite IH.
      rewrite upd_upd. unfold p1. rewrite drain_port_add by assumption.
      replace (Z.min n (Z.max 1 count))
        with (1 + Z.min (uart_circ_chars_pending cfg c1) (Z.max 1 (count - 1)))
        by lia.
      rewrite (Hsent (Z.to_nat (1 + _))) by lia.
      replace (pred (Z.to_nat (1 + Z.min (uart_circ_chars_pending cfg c1)
                                        (Z.max 1 (count - 1)))))
        with (Z.to_nat (Z.min (uart_circ_chars_pending cfg c1)
                              (Z.max 1 (count - 1)))) by lia.
      reflexivity.
    + replace (Z.min n (Z.max 1 count)) with 1 by lia.
      reflexivity.
Qed.

End Ring.

Section Drain.

Context (cfg : kconfig).

Lemma emit_ok e w : emit e w = Ok tt w [e].
Proof. reflexivity. Qed.

(* [r] bytes leave the ring *)
Lemma ring_advance c r :
  wf_xmit cfg c ->
  0 <= r <= uart_circ_chars_pending cfg c ->
  let c' := with_tail c ((tail c + r) mod UART_XMIT_SIZE cfg) in
  wf_xmit cfg c' /\
  uart_circ_chars_pending cfg c' = uart_circ_chars_pending cfg c - r.
Proof.
  intros (Hk & Hh & Ht & Hl) Hr c'. pose proof (xmit_size_pos cfg Hk) as Hs.
  pose proof (pending_range cfg c Hk) as Hp.
  assert (Ht' : 0 <= tail c' < UART_XMIT_SIZE cfg)
    by (simpl; apply Z.mod_pos_bound; lia).
  split; [repeat split; simpl in *; lia|].
  rewrite !pending_mod in * by assumption.
  simpl in *.
  rewrite (mod_range_cases (tail c + r)) in * by lia.
  rewrite (mod_range_cases (head c - tail c)) in Hr, Hp |- * by lia.
  destruct (Z.ltb_spec (tail c + r) 0); [lia|].
  destruct (Z.ltb_spec (tail c + r) (UART_XMIT_SIZE cfg));
    rewrite mod_range_cases by lia;
    repeat match goal with
           | |- context [?a <? ?b] => destruct (Z.ltb_spec a b)
           | H : context [?a <? ?b] |- _ => destruct (Z.ltb_spec a b)
           end; lia.
Qed.

(* lines 73-78: a pending x_char is sent and nothing else happens *)
Lemma tiny_tx_chars_x_char w port p :
  points_to w port p -> x_char p <> 0 ->
  tiny_tx_chars cfg port w =
  Ok tt (upd w port (with_x_char (with_tx p (u32 (icount_tx p + 1))) 0))
     [pr_enter_ev "tiny_tx_chars"; pr_info_x_char (x_char p)].
Proof.
  intros Hp Hx. unfold tiny_tx_chars.
  rewrite (bind_Ok_nil _ _ _ _ _ (read_port_ok _ _ _ Hp)).
  unfold pr_enter. rewrite (bind_Ok _ _ _ _ _ _ (emit_ok _ _)).
  rewrite (bind_Ok_nil _ _ _ _ _ (read_port_ok _ _ _ Hp)).
  destruct (Z.eqb_spec (x_char p) 0) as [|_]; [contradiction|].
  cbn [negb].
  rewrite (bind_Ok _ _ _ _ _ _ (emit_ok _ _)).
  rewrite (bind_Ok_nil _ _ _ _ _ (icount_tx_incr_ok _ _ _ Hp)).
  rewrite (set_x_char_ok _ _ _ _ (points_to_upd _ _ _ _ Hp)).
  now rewrite upd_upd.
Qed.

(* lines 79-82, first disjunct: nothing queued *)
Lemma tiny_tx_chars_empty w port p s :
  points_to w port p -> x_char p = 0 -> state p = Some s ->
  uart_circ_empty (xmit s) = true ->
  tiny_tx_chars cfg port w =
  Ok tt w [pr_enter_ev "tiny_tx_chars"; pr_enter_ev "tiny_stop_tx"].
Proof.
  intros Hp Hx Hs He. unfold tiny_tx_chars.
  rewrite (bind_Ok_nil _ _ _ _ _ (read_port_ok _ _ _ Hp)).
  unfold pr_enter. rewrite (bind_Ok _ _ _ _ _ _ (emit_ok _ _)).
  rewrite (bind_Ok_nil _ _ _ _ _ (read_port_ok _ _ _ Hp)).
  rewrite Hx. cbn [Z.eqb negb].
  rewrite (bind_Ok_nil _ _ _ _ _ (read_xmit_ok _ _ _ _ Hp Hs)).
  rewrite He. reflexivity.
Qed.

Lemma uart_tx_stopped_ok w port p s t :
  points_to w port p -> state p = Some s -> tty s = Some t ->
  uart_tx_stopped port w = Ok (stopped t || hw_stopped p)%bool w [].
Proof.
  intros Hp Hs Ht. unfold uart_tx_stopped.
  rewrite (bind_Ok_nil _ _ _ _ _ (read_port_ok _ _ _ Hp)).
  rewrite (bind_Ok_nil _ _ _ _ _ (read_state_ok _ _ _ _ Hp Hs)).
  now rewrite Ht.
Qed.

(* lines 79-82, second disjunct: the upper layer stopped transmission *)
Lemma tiny_tx_chars_stopped w port p s t :
  points_to w port p -> x_char p = 0 -> state p = Some s ->
  uart_circ_empty (xmit s) = false ->
  tty s = Some t -> (stopped t || hw_stopped p)%bool = true ->
  tiny_tx_chars cfg port w =
  Ok tt w [pr_enter_ev "tiny_tx_chars"; pr_enter_ev "tiny_stop_tx"].
Proof.
  intros Hp Hx Hs He Ht Hst. unfold tiny_tx_chars.
  rewrite (bind_Ok_nil _ _ _ _ _ (read_port_ok _ _ _ Hp)).
  unfold pr_enter. rewrite (bind_Ok _ _ _ _ _ _ (emit_ok _ _)).
  rewrite (bind_Ok_nil _ _ _ _ _ (read_port_ok _ _ _ Hp)).
  rewrite Hx. cbn [Z.eqb negb].
  rewrite (bind_Ok_nil _ _ _ _ _ (read_xmit_ok _ _ _ _ Hp Hs)).
  rewrite He.
  rewrite (bind_Ok_nil _ _ _ _ _ (uart_tx_stopped_ok _ _ _ _ _ Hp Hs Ht)).
  rewrite Hst. reflexivity.
Qed.

(* lines 84-97: the drain proper *)
Lemma tiny_tx_chars_drain w port p s t :
  points_to w port p -> x_char p = 0 -> state p = Some s ->
  wf_xmit cfg (xmit s) ->
  uart_circ_empty (xmit s) = false ->
  tty s = Some t -> (stopped t || hw_stopped p)%bool = false ->
  let n := uart_circ_chars_pending cfg (xmit s) in
  let r := drain_len cfg p s in
  tiny_tx_chars cfg port w =
  Ok tt (upd w port (drain_port cfg p r))
     (pr_enter_ev "tiny_tx_chars"
        :: map pr_info_xmit (sent cfg (xmit s) (Z.to_nat r))
        ++ (if n - r <? WAKEUP_CHARS cfg then [ev_uart_write_wakeup port] else [])
        ++ (if n - r =? 0 then [pr_enter_ev "tiny_stop_tx"] else [])).
Proof.
  intros Hp Hx Hs Hwf He Ht Hst n r. pose proof Hwf as (Hk & _).
  assert (Hn : 1 <= n).
  { pose proof (pending_range cfg (xmit s) Hk).
    pose proof (proj1 (pending_zero_iff cfg _ Hwf)).
    apply Z.eqb_neq in He. fold n in H, H0. lia. }
  assert (Hr : 0 <= r <= n) by (unfold r, drain_len; fold n; lia).
  destruct (ring_advance _ r Hwf Hr) as [Hwf' Hn'].
  fold n in Hn'.
  set (p' := drain_port cfg p r).
  pose proof (points_to_upd w port p p' Hp) as Hp'.
  pose proof (drain_port_state cfg p r s Hs) as Hs'. fold p' in Hs'.
  unfold tiny_tx_chars.
  rewrite (bind_Ok_nil _ _ _ _ _ (read_port_ok _ _ _ Hp)).
  unfold pr_enter. rewrite (bind_Ok _ _ _ _ _ _ (emit_ok _ _)).
  rewrite (bind_Ok_nil _ _ _ _ _ (read_port_ok _ _ _ Hp)).
  rewrite Hx. cbn [Z.eqb negb].
  rewrite (bind_Ok_nil _ _ _ _ _ (read_xmit_ok _ _ _ _ Hp Hs)).
  rewrite He.
  rewrite (bind_Ok_nil _ _ _ _ _ (uart_tx_stopped_ok _ _ _ _ _ Hp Hs Ht)).
  rewrite Hst.
  assert (Hfuel : Z.max 1 (Z.shiftr (fifosize p) 1)
                  <= Z.of_nat (S (Z.to_nat (Z.shiftr (fifosize p) 1)))) by lia.
  rewrite (bind_Ok _ _ _ _ _ _
    (tx_loop_spec cfg _ port _ w p s Hp Hs Hwf Hn Hfuel)).
  fold (drain_len cfg p s). fold r. fold p'.
  rewrite (bind_Ok_nil _ _ _ _ _ (read_xmit_ok _ _ _ _ Hp' Hs')).
  cbn [xmit with_xmit]. rewrite Hn'.
  assert (Hemp : uart_circ_empty
                   (with_tail (xmit s) ((tail (xmit s) + r) mod UART_XMIT_SIZE cfg))
                 = (n - r =? 0)).
  { unfold uart_circ_empty.
    pose proof (pending_zero_iff cfg _ Hwf') as Hz. rewrite Hn' in Hz.
    destruct (Z.eqb_spec (n - r) 0) as [E|E].
    - apply Z.eqb_eq. now apply Hz.
    - apply Z.eqb_neq. intros E'. apply E. now apply Hz. }
  destruct (n - r <? WAKEUP_CHARS cfg).
  - unfold uart_write_wakeup. rewrite (bind_Ok _ _ _ _ _ _ (emit_ok _ _)).
    rewrite (bind_Ok_nil _ _ _ _ _ (read_xmit_ok _ _ _ _ Hp' Hs')).
    cbn [xmit with_xmit]. rewrite Hemp.
    destruct (n - r =? 0); reflexivity.
  - rewrite (bind_Ok_nil _ _ _ _ _ (eq_refl : ret tt _ = Ok tt _ [])).
    rewrite (bind_Ok_nil _ _ _ _ _ (read_xmit_ok _ _ _ _ Hp' Hs')).
    cbn [xmit with_xmit]. rewrite Hemp.
    destruct (n - r =? 0); cbn; now rewrite ?app_nil_r.
Qed.

End Drain.

(** ** The timer and the firing *)

Section Timer.

Context (cfg : kconfig).

Lemma get_ok w : get w = Ok w w [].
Proof. reflexivity. Qed.

Lemma ret_ok {A} (a : A) w : ret a w = Ok a w [].
Proof. reflexivity. Qed.

Lemma set_timer_expires_ok w t tl v :
  timer_at w t tl -> timer w = t ->
  set_timer_expires v w = Ok tt (updt w t (with_expires tl v)) [].
Proof.
  intros H <-. unfold set_timer_expires.
  rewrite (bind_Ok_nil _ _ _ _ _ (get_ok w)).
  rewrite (bind_Ok_nil _ _ _ _ _ (read_timer_ok _ _ _ H)).
  now apply write_timer_ok with (tl := tl).
Qed.

Lemma set_timer_data_ok w t tl v :
  timer_at w t tl -> timer w = t ->
  set_timer_data v w =
  Ok tt (updt w t
           {| data := v; expires := expires tl; function := function tl;
              pending := pending tl |}) [].
Proof.
  intros H <-. unfold set_timer_data.
  rewrite (bind_Ok_nil _ _ _ _ _ (get_ok w)).
  rewrite (bind_Ok_nil _ _ _ _ _ (read_timer_ok _ _ _ H)).
  now apply write_timer_ok with (tl := tl).
Qed.

Lemma set_timer_function_ok w t tl f :
  timer_at w t tl -> timer w = t ->
  set_timer_function f w =
  Ok tt (updt w t
           {| data := data tl; expires := expires tl; function := Some f;
              pending := pending tl |}) [].
Proof.
  intros H <-. unfold set_timer_function.
  rewrite (bind_Ok_nil _ _ _ _ _ (get_ok w)).
  rewrite (bind_Ok_nil _ _ _ _ _ (read_timer_ok _ _ _ H)).
  now apply write_timer_ok with (tl := tl).
Qed.

Lemma init_timer_ok w t tl :
  timer_at w t tl ->
  init_timer t w = Ok tt (updt w t (with_pending tl false)) [ev_init_timer t].
Proof.
  intros H. unfold init_timer.
  rewrite (bind_Ok _ _ _ _ _ _ (emit_ok _ _)).
  rewrite (bind_Ok_nil _ _ _ _ _ (read_timer_ok _ _ _ H)).
  now rewrite (write_timer_ok _ _ _ _ H).
Qed.

Lemma add_timer_ok w t tl :
  timer_at w t tl -> pending tl = false ->
  add_timer t w =
  Ok tt (updt w t (with_pending tl true)) [ev_add_timer t (expires tl)].
Proof.
  intros H Hp. unfold add_timer.
  rewrite (bind_Ok_nil _ _ _ _ _ (read_timer_ok _ _ _ H)).
  rewrite Hp.
  rewrite (bind_Ok _ _ _ _ _ _ (emit_ok _ _)).
  now rewrite (write_timer_ok _ _ _ _ H).
Qed.

Lemma add_timer_pending w t tl :
  timer_at w t tl -> pending tl = true -> add_timer t w = Oops bug_on.
Proof.
  intros H Hp. unfold add_timer.
  rewrite (bind_Ok_nil _ _ _ _ _ (read_timer_ok _ _ _ H)).
  now rewrite Hp.
Qed.

Lemma del_timer_ok w t tl :
  timer_at w t tl ->
  del_timer t w = Ok tt (updt w t (with_pending tl false)) [ev_del_timer t].
Proof.
  intros H. unfold del_timer.
  rewrite (bind_Ok _ _ _ _ _ _ (emit_ok _ _)).
  rewrite (bind_Ok_nil _ _ _ _ _ (read_timer_ok _ _ _ H)).
  now rewrite (write_timer_ok _ _ _ _ H).
Qed.

Lemma timer_at_upd w port p t tl :
  timer_at w t tl -> timer_at (upd w port p) t tl.
Proof. intros H. exact H. Qed.

(* lines 111-120: a stale firing *)
Lemma tiny_timer_null w :
  tiny_timer cfg 0 w = Ok tt w [pr_enter_ev "tiny_timer"].
Proof. reflexivity. Qed.

Lemma tiny_timer_no_state w data p :
  points_to w data p -> state p = None ->
  tiny_timer cfg data w = Ok tt w [pr_enter_ev "tiny_timer"].
Proof.
  intros Hp Hs. unfold tiny_timer, pr_enter.
  rewrite (bind_Ok _ _ _ _ _ _ (emit_ok _ _)).
  destruct (Z.eqb_spec data 0) as [E|_]; [destruct Hp; contradiction|].
  rewrite (bind_Ok_nil _ _ _ _ _ (read_port_ok _ _ _ Hp)).
  now rewrite Hs.
Qed.

Lemma tiny_timer_no_tty w data p s :
  points_to w data p -> state p = Some s -> tty s = None ->
  tiny_timer cfg data w = Ok tt w [pr_enter_ev "tiny_timer"].
Proof.
  intros Hp Hs Ht. unfold tiny_timer, pr_enter.
  rewrite (bind_Ok _ _ _ _ _ _ (emit_ok _ _)).
  destruct (Z.eqb_spec data 0) as [E|_]; [destruct Hp; contradiction|].
  rewrite (bind_Ok_nil _ _ _ _ _ (read_port_ok _ _ _ Hp)).
  now rewrite Hs, Ht.
Qed.

(* lines 122-135: a firing on a live port injects, flushes, re-arms and
   then hands over to the transmit drain *)
Lemma tiny_timer_live w data p s t tl :
  points_to w data p -> state p = Some s -> tty s = Some t ->
  timer_at w (timer w) tl -> pending tl = false ->
  tiny_timer cfg data w =
  match tiny_tx_chars cfg data
          (updt w (timer w)
             (with_pending
                (with_expires tl (ulong cfg (jiffies w + DELAY_TIME cfg))) true))
  with
  | Ok b w2 tr2 => Ok b w2 (rx_prefix cfg w (tty_port t) ++ tr2)
  | Oops e => Oops e
  | OutOfFuel => OutOfFuel
  end.
Proof.
  intros Hp Hs Ht Htl Hpend. unfold tiny_timer, pr_enter.
  rewrite (bind_Ok _ _ _ _ _ _ (emit_ok _ _)).
  destruct (Z.eqb_spec data 0) as [E|_]; [destruct Hp; contradiction|].
  rewrite (bind_Ok_nil _ _ _ _ _ (read_port_ok _ _ _ Hp)).
  rewrite Hs, Ht.
  unfold tty_insert_flip_char, tty_flip_buffer_push.
  rewrite (bind_Ok _ _ _ _ _ _ (emit_ok _ _)).
  rewrite (bind_Ok _ _ _ _ _ _ (emit_ok _ _)).
  rewrite (bind_Ok_nil _ _ _ _ _ (get_ok w)).
  rewrite (bind_Ok_nil _ _ _ _ _ (set_timer_expires_ok _ _ _ _ Htl eq_refl)).
  pose proof (timer_at_updt w (timer w) tl
                (with_expires tl (ulong cfg (jiffies w + DELAY_TIME cfg))) Htl)
    as Htl1.
  rewrite (bind_Ok _ _ _ _ _ _ (add_timer_ok _ _ _ Htl1 Hpend)).
  rewrite updt_updt.
  destruct (tiny_tx_chars cfg data _); reflexivity.
Qed.

(* lines 228-233, with [t] the value of the global pointer *)
Lemma arm_ok w t port tl :
  timer w = t -> timer_at w t tl ->
  (let* w := get in
   init_timer (timer w) >>
   set_timer_data port >>
   set_timer_expires (ulong cfg (jiffies w + DELAY_TIME cfg)) >>
   set_timer_function fn_tiny_timer >>
   add_timer (timer w) >>
   ret 0) w =
  Ok 0 (updt w t (armed cfg port (jiffies w)))
     [ev_init_timer t; ev_add_timer t (ulong cfg (jiffies w + DELAY_TIME cfg))].
Proof.
  intros Ht Htl.
  rewrite (bind_Ok_nil _ _ _ _ _ (get_ok w)). rewrite Ht.
  rewrite (bind_Ok _ _ _ _ _ _ (init_timer_ok _ _ _ Htl)).
  pose proof (timer_at_updt w t tl (with_pending tl false) Htl) as H1.
  rewrite (bind_Ok_nil _ _ _ _ _ (set_timer_data_ok _ t _ port H1 Ht)).
  rewrite updt_updt.
  match goal with |- context [updt w t ?x] =>
    pose proof (timer_at_updt w t tl x Htl) as H2 end.
  rewrite (bind_Ok_nil _ _ _ _ _ (set_timer_expires_ok _ t _ _ H2 Ht)).
  rewrite updt_updt.
  match goal with |- context [updt w t ?x] =>
    pose proof (timer_at_updt w t tl x Htl) as H3 end.
  rewrite (bind_Ok_nil _ _ _ _ _ (set_timer_function_ok _ t _ _ H3 Ht)).
  rewrite updt_updt.
  match goal with |- context [updt w t ?x] =>
    pose proof (timer_at_updt w t tl x Htl) as H4 end.
  rewrite (bind_Ok _ _ _ _ _ _ (add_timer_ok _ _ _ H4 eq_refl)).
  rewrite updt_updt. reflexivity.
Qed.

End Timer.

Section Lifecycle.

Context (cfg : kconfig).

Lemma set_timer_same w : set_timer w (timer w) = w.
Proof. now destruct w. Qed.

(* lines 223-233, the timer object exists already *)
Lemma tiny_startup_reuse w km port tl :
  timer_at w (timer w) tl ->
  tiny_startup cfg km port w =
  Ok 0 (updt w (timer w) (armed cfg port (jiffies w)))
     [pr_enter_ev "tiny_startup"; ev_init_timer (timer w);
      ev_add_timer (timer w) (ulong cfg (jiffies w + DELAY_TIME cfg))].
Proof.
  intros Htl. pose proof Htl as [Hn _]. unfold tiny_startup, pr_enter.
  rewrite (bind_Ok _ _ _ _ _ _ (emit_ok _ _)).
  rewrite (bind_Ok_nil _ _ _ _ _ (get_ok w)).
  destruct (Z.eqb_spec (timer w) 0) as [E|_]; [contradiction|].
  rewrite (bind_Ok_nil _ _ _ _ _ (ret_ok false w)).
  cbv iota.
  now rewrite (arm_ok cfg w (timer w) port tl eq_refl Htl).
Qed.

(* lines 223-226, kmalloc fails *)
Lemma tiny_startup_enomem w port :
  timer w = 0 ->
  tiny_startup cfg None port w =
  Ok (- ENOMEM) w [pr_enter_ev "tiny_startup"; ev_kmalloc 0].
Proof.
  intros Ht. unfold tiny_startup, pr_enter.
  rewrite (bind_Ok _ _ _ _ _ _ (emit_ok _ _)).
  rewrite (bind_Ok_nil _ _ _ _ _ (get_ok w)).
  rewrite Ht. cbn [Z.eqb].
  assert (H : (let* t := kmalloc None in
               let* w0 := get in put (set_timer w0 t) >> ret (t =? 0)) w
              = Ok true w [ev_kmalloc 0]).
  { cbv [bind kmalloc emit ret get put app]. cbn [Z.eqb].
    now rewrite <- Ht, set_timer_same. }
  rewrite (bind_Ok _ _ _ _ _ _ H). reflexivity.
Qed.

(* lines 223-233, kmalloc hands out the object at [a] *)
Lemma tiny_startup_alloc w port a junk :
  timer w = 0 -> a <> 0 ->
  tiny_startup cfg (Some (a, junk)) port w =
  Ok 0 (updt (allocated w a junk) a (armed cfg port (jiffies w)))
     [pr_enter_ev "tiny_startup"; ev_kmalloc a; ev_init_timer a;
      ev_add_timer a (ulong cfg (jiffies w + DELAY_TIME cfg))].
Proof.
  intros Ht Ha. unfold tiny_startup, pr_enter.
  rewrite (bind_Ok _ _ _ _ _ _ (emit_ok _ _)).
  rewrite (bind_Ok_nil _ _ _ _ _ (get_ok w)).
  rewrite Ht. cbn [Z.eqb].
  assert (H : (let* t := kmalloc (Some (a, junk)) in
               let* w0 := get in put (set_timer w0 t) >> ret (t =? 0)) w
              = Ok false (allocated w a junk) [ev_kmalloc a]).
  { cbv [bind kmalloc emit ret get put app].
    destruct (Z.eqb_spec a 0); [contradiction|reflexivity]. }
  rewrite (bind_Ok _ _ _ _ _ _ H). cbv iota.
  assert (Htl : timer_at (allocated w a junk) a junk)
    by (split; [exact Ha|apply lookup_insert_eq]).
  now rewrite (arm_ok cfg (allocated w a junk) a port junk eq_refl Htl).
Qed.

(* lines 236-245 *)
Lemma tiny_shutdown_allocated w port tl :
  timer_at w (timer w) tl ->
  tiny_shutdown port w =
  Ok tt (updt w (timer w) (with_pending tl false))
     [pr_enter_ev "tiny_shutdown"; ev_del_timer (timer w)].
Proof.
  intros Htl. unfold tiny_shutdown, pr_enter.
  rewrite (bind_Ok _ _ _ _ _ _ (emit_ok _ _)).
  rewrite (bind_Ok_nil _ _ _ _ _ (get_ok w)).
  now rewrite (del_timer_ok _ _ _ Htl).
Qed.

Lemma tiny_shutdown_null w port :
  timer w = 0 -> tiny_shutdown port w = Oops null_deref.
Proof.
  intros Ht. unfold tiny_shutdown, pr_enter.
  rewrite (bind_Ok _ _ _ _ _ _ (emit_ok _ _)).
  rewrite (bind_Ok_nil _ _ _ _ _ (get_ok w)).
  rewrite Ht. reflexivity.
Qed.



End Lifecycle.

(** ** Properties of the driver *)

Lemma count_ev_app f tr1 tr2 :
  count_ev f (tr1 ++ tr2) = (count_ev f tr1 + count_ev f tr2)%nat.
Proof. unfold count_ev. now rewrite List.filter_app, length_app. Qed.

Lemma count_ev_xmit_other f l :
  (forall c, f (pr_info_xmit c) = false) ->
  count_ev f (map pr_info_xmit l) = 0%nat.
Proof.
  intros Hf. unfold count_ev.
  induction l as [|c l IH]; simpl; [reflexivity|]. now rewrite Hf.
Qed.

Lemma count_ev_xmit_wrote l :
  count_ev is_xmit_wrote (map pr_info_xmit l) = length l.
Proof.
  unfold count_ev. induction l as [|c l IH]; simpl; [reflexivity|].
  now rewrite IH.
Qed.

Lemma sent_length cfg k : forall c, length (sent cfg c k) = k.
Proof. induction k as [|k IH]; intros c; simpl; [reflexivity|]. now rewrite IH. Qed.

Ltac concrete :=
  repeat match goal with
         | |- _ /\ _ => split
         | |- points_to _ _ _ => split
         | |- timer_at _ _ _ => split
         | |- wf_xmit _ _ => unfold wf_xmit
         end;
  try (vm_compute; first [reflexivity | discriminate | congruence]).

(** C10.  Whatever the port and whatever the ring holds, [tiny_tx_empty]
    returns the constant 0: the transmitter is always reported as not
    empty.  The only effect is the entry notice. *)
Theorem tiny_tx_empty_is_zero (port : Z) (w : world) :
  tiny_tx_empty port w = Ok 0 w [pr_enter_ev "tiny_tx_empty"].
Proof.
  unfold tiny_tx_empty, pr_enter, bind.
  destruct (emit (pr_enter_ev "tiny_tx_empty") w) as [[] w1 tr1| |] eqn:E;
    inversion E; subst.
  reflexivity.
Qed.

(** C5.  With an x_char pending, the drain sends it and returns: the
    transmitted-byte counter goes up by one (as a __u32), x_char is back to
    zero, and port->state (the ring's head, tail and contents) is as it was;
    no byte of the ring is written out and no wakeup is signalled. *)
Theorem tiny_tx_chars_x_char_first
    (cfg : kconfig) (w : world) (port : Z) (p : uart_port) :
  points_to w port p -> x_char p <> 0 ->
  exists p',
    tiny_tx_chars cfg port w =
      Ok tt (upd w port p')
         [pr_enter_ev "tiny_tx_chars"; pr_info_x_char (x_char p)] /\
    icount_tx p' = u32 (icount_tx p + 1) /\
    (0 <= icount_tx p < 2 ^ 32 - 1 -> icount_tx p' = icount_tx p + 1) /\
    x_char p' = 0 /\
    state p' = state p /\
    fifosize p' = fifosize p /\ hw_stopped p' = hw_stopped p.
Proof.
  intros Hp Hx. eexists. split; [now apply tiny_tx_chars_x_char|].
  simpl. repeat split.
  intros Hr. unfold u32. apply Z.mod_small. lia.
Qed.

Lemma tiny_tx_chars_x_char_first_witness :
  exists p',
    tiny_tx_chars cfg16 port_addr (boot (mk_port 17 16 10 0)) =
      Ok tt (upd (boot (mk_port 17 16 10 0)) port_addr p')
         [pr_enter_ev "tiny_tx_chars"; pr_info_x_char 17] /\
    icount_tx p' = 1 /\ x_char p' = 0 /\
    state p' = state (mk_port 17 16 10 0).
Proof.
  assert (Hp : points_to (boot (mk_port 17 16 10 0)) port_addr
                 (mk_port 17 16 10 0)) by concrete.
  assert (Hx : x_char (mk_port 17 16 10 0) <> 0) by (vm_compute; discriminate).
  destruct (tiny_tx_chars_x_char_first cfg16 _ _ _ Hp Hx)
    as (p' & Hrun & Htx & _ & Hx' & Hs & _).
  exists p'. repeat split; assumption.
Defined.

(** C4.  A firing whose port reference is NULL, whose port has no state, or
    whose state has no tty attached returns normally and leaves kernel
    memory as it was: nothing is injected, the ring is not drained, the
    timer is not re-armed.  The entry notice is all that is logged. *)
Theorem tiny_timer_stale_is_noop (cfg : kconfig) (w : world) (data : Z) :
  (data = 0 \/
   exists p, points_to w data p /\
             (state p = None \/ exists s, state p = Some s /\ tty s = None)) ->
  tiny_timer cfg data w = Ok tt w [pr_enter_ev "tiny_timer"].
Proof.
  intros [->|(p & Hp & [Hs|(s & Hs & Ht)])].
  - apply tiny_timer_null.
  - now apply tiny_timer_no_state with (p := p).
  - now apply tiny_timer_no_tty with (p := p) (s := s).
Qed.

Lemma tiny_timer_stale_is_noop_witness :
  tiny_timer cfg16 0 (opened scenario_port)
    = Ok tt (opened scenario_port) [pr_enter_ev "tiny_timer"] /\
  tiny_timer cfg16 port_addr (opened port_no_state)
    = Ok tt (opened port_no_state) [pr_enter_ev "tiny_timer"] /\
  tiny_timer cfg16 port_addr (opened port_no_tty)
    = Ok tt (opened port_no_tty) [pr_enter_ev "tiny_timer"].
Proof.
  split; [|split].
  - apply tiny_timer_stale_is_noop. left. reflexivity.
  - apply tiny_timer_stale_is_noop. right. exists port_no_state.
    split; [concrete|]. left. reflexivity.
  - apply tiny_timer_stale_is_noop. right. exists port_no_tty.
    split; [concrete|]. right. eexists. split; reflexivity.
Defined.

(** C2, as the code has it.  One call of the drain, with no x_char pending
    and transmission not stopped, takes [r] bytes off the ring, where [r] is
    the smaller of the pending count and max(1, fifosize >> 1): the do-while
    loop always sends one byte, and the quota comes from the port's
    fifosize, not from the capacity of the ring.  The consuming index moves
    [r] places modulo the capacity, the counter goes up by [r] (as a __u32),
    [r] bytes are written out, the producing index and the contents stay, the
    loop stops early only because the ring ran empty, and nothing is taken
    from an empty ring. *)
Theorem tiny_tx_chars_drain_bounds
    (cfg : kconfig) (w : world) (port : Z)
    (p : uart_port) (s : uart_state) (t : tty_struct) :
  points_to w port p -> x_char p = 0 -> state p = Some s ->
  wf_xmit cfg (xmit s) -> 0 <= icount_tx p < 2 ^ 32 ->
  tty s = Some t -> (stopped t || hw_stopped p)%bool = false ->
  exists tr p' s',
    tiny_tx_chars cfg port w = Ok tt (upd w port p') tr /\
    state p' = Some s' /\ wf_xmit cfg (xmit s') /\
    let n := uart_circ_chars_pending cfg (xmit s) in
    let r := n - uart_circ_chars_pending cfg (xmit s') in
    0 <= r <= n /\
    r = Z.min n (Z.max 1 (Z.shiftr (fifosize p) 1)) /\
    (n = 0 -> r = 0) /\
    tail (xmit s') = (tail (xmit s) + r) mod UART_XMIT_SIZE cfg /\
    icount_tx p' = u32 (icount_tx p + r) /\
    count_ev is_xmit_wrote tr = Z.to_nat r /\
    head (xmit s') = head (xmit s) /\ buf (xmit s') = buf (xmit s).
Proof.
  intros Hp Hx Hs Hwf Htx Ht Hst. pose proof Hwf as (Hk & Hh & Htl & Hl).
  pose proof (pending_range cfg (xmit s) Hk) as Hn.
  destruct (uart_circ_empty (xmit s)) eqn:He.
  - (* nothing queued: lines 79-82 *)
    exists [pr_enter_ev "tiny_tx_chars"; pr_enter_ev "tiny_stop_tx"], p, s.
    rewrite (upd_same _ _ _ Hp).
    split; [now apply tiny_tx_chars_empty with (p := p) (s := s)|].
    apply Z.eqb_eq in He.
    pose proof (proj2 (pending_zero_iff cfg _ Hwf) He) as Hz.
    cbv zeta. rewrite Hz, Z.sub_0_r, Z.add_0_r.
    unfold u32. rewrite !Z.mod_small by lia.
    repeat split; try assumption; lia.
  - pose proof (tiny_tx_chars_drain cfg w port p s t Hp Hx Hs Hwf He Ht Hst)
      as Hrun.
    cbv zeta in Hrun.
    assert (Hr : 0 <= drain_len cfg p s <= uart_circ_chars_pending cfg (xmit s)).
    { unfold drain_len. apply Z.eqb_neq in He.
      pose proof (proj1 (pending_zero_iff cfg _ Hwf)). lia. }
    destruct (ring_advance cfg _ _ Hwf Hr) as [Hwf' Hn'].
    eexists _, (drain_port cfg p (drain_len cfg p s)), _.
    split; [exact Hrun|].
    split; [exact (drain_port_state cfg p _ s Hs)|].
    cbn [xmit with_xmit]. split; [exact Hwf'|].
    cbv zeta. rewrite Hn'.
    replace (uart_circ_chars_pending cfg (xmit s)
             - (uart_circ_chars_pending cfg (xmit s) - drain_len cfg p s))
      with (drain_len cfg p s) by lia.
    repeat split; try lia.
    change (pr_enter_ev "tiny_tx_chars" :: ?l)
      with ([pr_enter_ev "tiny_tx_chars"] ++ l)%list.
    rewrite !count_ev_app, count_ev_xmit_wrote, sent_length.
    destruct (Z.ltb _ _), (Z.eqb _ _); cbn; lia.
Qed.

Lemma tiny_tx_chars_drain_bounds_witness :
  exists tr p' s',
    tiny_tx_chars cfg16 port_addr scenario_world
      = Ok tt (upd scenario_world port_addr p') tr /\
    state p' = Some s' /\
    uart_circ_chars_pending cfg16 (xmit s') = 2 /\
    tail (xmit s') = 8 /\ icount_tx p' = 8 /\
    count_ev is_xmit_wrote tr = 8%nat.
Proof.
  assert (Hp : points_to scenario_world port_addr scenario_port) by concrete.
  assert (Hwf : wf_xmit cfg16 (xmit {| tty := Some tty0;
                  xmit := {| buf := ring16; head := 10; tail := 0 |} |}))
    by concrete.
  assert (Htx : 0 <= icount_tx scenario_port < 2 ^ 32) by concrete.
  destruct (tiny_tx_chars_drain_bounds cfg16 scenario_world port_addr
              scenario_port _ tty0 Hp eq_refl eq_refl Hwf Htx eq_refl eq_refl)
    as (tr & p' & s' & Hrun & Hs' & _ & Hb).
  cbv zeta in Hb.
  destruct Hb as (_ & Hr & _ & Htl & Hic & Hcnt & _).
  change (uart_circ_chars_pending cfg16 _) with 10 in Hr at 1 3.
  change (Z.min 10 _) with 8 in Hr.
  assert (Hn' : uart_circ_chars_pending cfg16 (xmit s') = 2) by lia.
  rewrite Hn' in *.
  exists tr, p', s'. repeat split; assumption.
Defined.

(** C2, as stated, fails.  With fifosize 0, which is what the driver's own
    [tiny_port] has since it never sets the field, one call takes one byte,
    more than fifosize / 2 = 0.  With fifosize 64 on a ring of capacity 16
    holding 15 bytes, one call takes all 15, more than capacity / 2 = 8. *)
Lemma drain_quota_counterexample :
  (exists w' tr,
     tiny_tx_chars cfg16 port_addr (boot (mk_port 0 0 10 0)) = Ok tt w' tr /\
     pending_at cfg16 (boot (mk_port 0 0 10 0)) port_addr = Some 10 /\
     pending_at cfg16 w' port_addr = Some 9 /\
     ~ 10 - 9 <= fifosize (mk_port 0 0 10 0) / 2) /\
  (exists w' tr,
     tiny_tx_chars cfg16 port_addr (boot (mk_port 0 64 15 0)) = Ok tt w' tr /\
     pending_at cfg16 (boot (mk_port 0 64 15 0)) port_addr = Some 15 /\
     pending_at cfg16 w' port_addr = Some 0 /\
     ~ 15 - 0 <= UART_XMIT_SIZE cfg16 / 2).
Proof.
  split; eexists _, _;
    (split; [vm_compute; reflexivity|]);
    (split; [vm_compute; reflexivity|]);
    (split; [vm_compute; reflexivity|]);
    vm_compute; intros H; apply H; reflexivity.
Qed.

(** C1, as the code has it.  A call of the drain signals wakeup at most
    once, and does so exactly when the loop ran (no x_char pending, ring not
    empty, transmission not stopped) and the number of bytes pending after
    the loop is below WAKEUP_CHARS.  The test looks at the level after the
    drain only; the level before it plays no part. *)
Theorem wakeup_iff_below_mark_after_drain
    (cfg : kconfig) (w : world) (port : Z)
    (p : uart_port) (s : uart_state) (t : tty_struct) :
  points_to w port p -> state p = Some s -> wf_xmit cfg (xmit s) ->
  tty s = Some t ->
  exists w' tr p' s',
    tiny_tx_chars cfg port w = Ok tt w' tr /\
    ports w' !! port = Some p' /\ state p' = Some s' /\
    count_ev is_wakeup tr =
      if (x_char p =? 0)
         && negb (uart_circ_empty (xmit s))
         && negb (stopped t || hw_stopped p)
         && (uart_circ_chars_pending cfg (xmit s') <? WAKEUP_CHARS cfg)
      then 1%nat else 0%nat.
Proof.
  intros Hp Hs Hwf Ht. pose proof Hp as [_ Hl].
  destruct (Z.eqb_spec (x_char p) 0) as [Hx|Hx].
  - destruct (uart_circ_empty (xmit s)) eqn:He.
    + exists w, [pr_enter_ev "tiny_tx_chars"; pr_enter_ev "tiny_stop_tx"], p, s.
      split; [now apply tiny_tx_chars_empty with (p := p) (s := s)|].
      repeat split; assumption.
    + destruct (stopped t || hw_stopped p)%bool eqn:Hst.
      * exists w, [pr_enter_ev "tiny_tx_chars"; pr_enter_ev "tiny_stop_tx"], p, s.
        split; [now apply tiny_tx_chars_stopped with (p := p) (s := s) (t := t)|].
        repeat split; assumption.
      * pose proof (tiny_tx_chars_drain cfg w port p s t Hp Hx Hs Hwf He Ht Hst)
          as Hrun.
        cbv zeta in Hrun.
        assert (Hr : 0 <= drain_len cfg p s
                       <= uart_circ_chars_pending cfg (xmit s)).
        { unfold drain_len. apply Z.eqb_neq in He.
          pose proof Hwf as (Hk & _).
          pose proof (pending_range cfg (xmit s) Hk).
          pose proof (proj1 (pending_zero_iff cfg _ Hwf)). lia. }
        destruct (ring_advance cfg _ _ Hwf Hr) as [_ Hn'].
        eexists _, _, (drain_port cfg p (drain_len cfg p s)), _.
        split; [exact Hrun|].
        split; [apply lookup_insert_eq|].
        split; [exact (drain_port_state cfg p _ s Hs)|].
        cbn [xmit with_xmit andb negb]. rewrite Hn'.
        change (pr_enter_ev "tiny_tx_chars" :: ?l)
          with ([pr_enter_ev "tiny_tx_chars"] ++ l)%list.
        rewrite !count_ev_app, count_ev_xmit_other by reflexivity.
        destruct (Z.ltb _ _), (Z.eqb _ _); reflexivity.
  - exists (upd w port (with_x_char (with_tx p (u32 (icount_tx p + 1))) 0)),
      [pr_enter_ev "tiny_tx_chars"; pr_info_x_char (x_char p)],
      (with_x_char (with_tx p (u32 (icount_tx p + 1))) 0), s.
    split; [now apply tiny_tx_chars_x_char|].
    split; [apply lookup_insert_eq|].
    split; [exact Hs|reflexivity].
Qed.

Lemma wakeup_iff_below_mark_after_drain_witness :
  exists w' tr p' s',
    tiny_tx_chars cfg16 port_addr scenario_world = Ok tt w' tr /\
    ports w' !! port_addr = Some p' /\ state p' = Some s' /\
    count_ev is_wakeup tr =
      if uart_circ_chars_pending cfg16 (xmit s') <? WAKEUP_CHARS cfg16
      then 1%nat else 0%nat.
Proof.
  assert (Hp : points_to scenario_world port_addr scenario_port) by concrete.
  assert (Hwf : wf_xmit cfg16 (xmit {| tty := Some tty0;
                  xmit := {| buf := ring16; head := 10; tail := 0 |} |}))
    by concrete.
  exact (wakeup_iff_below_mark_after_drain cfg16 scenario_world port_addr
           scenario_port _ tty0 Hp eq_refl Hwf eq_refl).
Defined.

(** C1, as stated, fails on the scenario of the specification (capacity 16,
    low-water mark 4, fifosize 16, 10 bytes queued).  The first call leaves
    2 bytes pending and signals wakeup; the second call starts with 2 bytes
    pending, already below the mark, drains them and signals wakeup again. *)
Lemma wakeup_below_mark_counterexample :
  exists w1 tr1 w2 tr2,
    tiny_tx_chars cfg16 port_addr scenario_world = Ok tt w1 tr1 /\
    tiny_tx_chars cfg16 port_addr w1 = Ok tt w2 tr2 /\
    pending_at cfg16 scenario_world port_addr = Some 10 /\
    pending_at cfg16 w1 port_addr = Some 2 /\
    pending_at cfg16 w2 port_addr = Some 0 /\
    2 < WAKEUP_CHARS cfg16 /\
    count_ev is_wakeup tr1 = 1%nat /\
    count_ev is_wakeup tr2 = 1%nat /\
    In (ev_uart_write_wakeup port_addr) tr2.
Proof.
  eexists _, _, _, _.
  split; [vm_compute; reflexivity|].
  split; [vm_compute; reflexivity|].
  repeat (split; [vm_compute; reflexivity|]).
  vm_compute. tauto.
Qed.

Lemma forallb_xmit_wrote l : forallb is_tx_event (map pr_info_xmit l) = true.
Proof. induction l as [|c l IH]; simpl; [reflexivity|exact IH]. Qed.

Lemma filter_tx_event f tr :
  (forall e, is_tx_event e = true -> f e = false) ->
  forallb is_tx_event tr = true -> List.filter f tr = [].
Proof.
  intros Hf. induction tr as [|e tr IH]; simpl; [reflexivity|].
  intros H. apply andb_true_iff in H as [He Htr].
  rewrite (Hf e He). now apply IH.
Qed.

(* on a live port with a well-formed ring the drain returns, touches only
   the port, calls nothing but printk and uart_write_wakeup, and leaves the
   port live *)
Lemma tiny_tx_chars_live cfg w port p s t :
  points_to w port p -> state p = Some s -> tty s = Some t ->
  wf_xmit cfg (xmit s) ->
  exists p' tr,
    tiny_tx_chars cfg port w = Ok tt (upd w port p') tr /\
    forallb is_tx_event tr = true /\
    live cfg p'.
Proof.
  intros Hp Hs Ht Hwf.
  assert (Hlive : live cfg p) by (exists s, t; auto).
  destruct (Z.eqb_spec (x_char p) 0) as [Hx|Hx].
  - destruct (uart_circ_empty (xmit s)) eqn:He.
    + exists p, [pr_enter_ev "tiny_tx_chars"; pr_enter_ev "tiny_stop_tx"].
      rewrite (upd_same _ _ _ Hp).
      split; [now apply tiny_tx_chars_empty with (p := p) (s := s)|].
      split; [reflexivity|exact Hlive].
    + destruct (stopped t || hw_stopped p)%bool eqn:Hst.
      * exists p, [pr_enter_ev "tiny_tx_chars"; pr_enter_ev "tiny_stop_tx"].
        rewrite (upd_same _ _ _ Hp).
        split; [|split; [reflexivity|exact Hlive]].
        now apply tiny_tx_chars_stopped with (p := p) (s := s) (t := t).
      * pose proof (tiny_tx_chars_drain cfg w port p s t Hp Hx Hs Hwf He Ht Hst)
          as Hrun.
        cbv zeta in Hrun.
        assert (Hr : 0 <= drain_len cfg p s
                       <= uart_circ_chars_pending cfg (xmit s)).
        { unfold drain_len. apply Z.eqb_neq in He.
          pose proof Hwf as (Hk & _).
          pose proof (pending_range cfg (xmit s) Hk).
          pose proof (proj1 (pending_zero_iff cfg _ Hwf)). lia. }
        destruct (ring_advance cfg _ _ Hwf Hr) as [Hwf' _].
        eexists _, _. split; [exact Hrun|]. split.
        -- cbn [forallb is_tx_event andb].
           rewrite !forallb_app, forallb_xmit_wrote.
           destruct (Z.ltb _ _), (Z.eqb _ _); reflexivity.
        -- eexists _, t.
           split; [exact (drain_port_state cfg p _ s Hs)|].
           split; [exact Ht|exact Hwf'].
  - eexists _, _.
    split; [exact (tiny_tx_chars_x_char cfg w port p Hp Hx)|].
    split; [reflexivity|]. exists s, t. auto.
Qed.

(** C3.  A firing on a live, open port (port, state and tty present, ring
    well formed, the timer object allocated and, as on every expiry, no
    longer queued) makes exactly one call into the receive path to inject a
    character, the constant 't', followed by one flush; it then re-arms the
    timer for jiffies + DELAY_TIME; and only then runs the transmit drain,
    in the world where the timer is already queued again.  The drain adds
    no receive call and no further add_timer. *)
Theorem tiny_timer_live_firing
    (cfg : kconfig) (w : world) (data : Z)
    (p : uart_port) (s : uart_state) (t : tty_struct) (tl : timer_list) :
  points_to w data p -> state p = Some s -> tty s = Some t ->
  wf_xmit cfg (xmit s) ->
  timer_at w (timer w) tl -> pending tl = false ->
  let expiry := ulong cfg (jiffies w + DELAY_TIME cfg) in
  let queued := with_pending (with_expires tl expiry) true in
  let w1 := updt w (timer w) queued in
  exists p' tr_tx,
    tiny_tx_chars cfg data w1 = Ok tt (upd w1 data p') tr_tx /\
    tiny_timer cfg data w =
      Ok tt (upd w1 data p')
         ([pr_enter_ev "tiny_timer";
           ev_tty_insert_flip_char (tty_port t) "t"%char 0;
           ev_tty_flip_buffer_push (tty_port t);
           ev_add_timer (timer w) expiry] ++ tr_tx) /\
    List.filter is_rx tr_tx = [] /\
    List.filter is_add_timer tr_tx = [] /\
    count_ev is_inject
      ([pr_enter_ev "tiny_timer";
        ev_tty_insert_flip_char (tty_port t) "t"%char 0;
        ev_tty_flip_buffer_push (tty_port t);
        ev_add_timer (timer w) expiry] ++ tr_tx) = 1%nat /\
    timer_at (upd w1 data p') (timer w) queued /\
    pending queued = true /\ expires queued = expiry.
Proof.
  intros Hp Hs Ht Hwf Htl Hpend expiry queued w1.
  assert (Hp1 : points_to w1 data p) by exact Hp.
  destruct (tiny_tx_chars_live cfg w1 data p s t Hp1 Hs Ht Hwf)
    as (p' & tr & Hrun & Htr & _).
  assert (Hrx : List.filter is_rx tr = [])
    by (apply filter_tx_event; [now intros []|exact Htr]).
  assert (Hin : List.filter is_inject tr = [])
    by (apply filter_tx_event; [now intros []|exact Htr]).
  exists p', tr. split; [exact Hrun|].
  split.
  - rewrite (tiny_timer_live cfg w data p s t tl Hp Hs Ht Htl Hpend).
    fold expiry. fold queued. fold w1. now rewrite Hrun.
  - split; [exact Hrx|].
    split; [apply filter_tx_event; [now intros []|exact Htr]|].
    split; [unfold count_ev; rewrite List.filter_app, Hin; reflexivity|].
    split; [|split; reflexivity].
    apply timer_at_upd. unfold w1. now apply timer_at_updt with (tl := tl).
Qed.

Lemma tiny_timer_live_firing_witness :
  exists p' tr_tx,
    tiny_timer cfg16 port_addr (opened scenario_port) =
      Ok tt
         (upd (updt (opened scenario_port) timer_addr
                 {| data := port_addr; expires := 1400;
                    function := Some fn_tiny_timer; pending := true |})
              port_addr p')
         ([pr_enter_ev "tiny_timer";
           ev_tty_insert_flip_char 12288 "t"%char 0;
           ev_tty_flip_buffer_push 12288;
           ev_add_timer timer_addr 1400] ++ tr_tx) /\
    List.filter is_rx tr_tx = [].
Proof.
  assert (Hp : points_to (opened scenario_port) port_addr scenario_port)
    by concrete.
  assert (Hwf : wf_xmit cfg16 (xmit {| tty := Some tty0;
                  xmit := {| buf := ring16; head := 10; tail := 0 |} |}))
    by concrete.
  assert (Htl : timer_at (opened scenario_port)
                  (timer (opened scenario_port)) idle_timer) by concrete.
  destruct (tiny_timer_live_firing cfg16 (opened scenario_port) port_addr
              scenario_port _ tty0 idle_timer Hp eq_refl eq_refl Hwf Htl eq_refl)
    as (p' & tr & _ & Hrun & Hrx & _).
  exists p', tr. split; [exact Hrun|exact Hrx].
Defined.

(** C6.  [tiny_startup] calls kmalloc only when the global timer pointer is
    NULL.  With a timer object already there (a reopen) it allocates
    nothing, keeps the pointer and arms that object.  When the object is
    missing and kmalloc fails it returns -ENOMEM and does nothing else: no
    init_timer, no add_timer, memory as before.  When kmalloc succeeds it
    stores the pointer, arms the new object and returns 0.  Armed means:
    data is the port, expires is jiffies + DELAY_TIME, function is
    tiny_timer, and the timer is queued. *)
Theorem tiny_startup_allocates_once
    (cfg : kconfig) (w : world) (km : option (Z * timer_list)) (port : Z) :
  (forall tl, timer_at w (timer w) tl ->
     tiny_startup cfg km port w =
       Ok 0 (updt w (timer w) (armed cfg port (jiffies w)))
          [pr_enter_ev "tiny_startup"; ev_init_timer (timer w);
           ev_add_timer (timer w) (ulong cfg (jiffies w + DELAY_TIME cfg))]) /\
  (timer w = 0 -> km = None ->
     tiny_startup cfg km port w =
       Ok (- ENOMEM) w [pr_enter_ev "tiny_startup"; ev_kmalloc 0]) /\
  (forall a junk, timer w = 0 -> km = Some (a, junk) -> a <> 0 ->
     tiny_startup cfg km port w =
       Ok 0 (updt (allocated w a junk) a (armed cfg port (jiffies w)))
          [pr_enter_ev "tiny_startup"; ev_kmalloc a; ev_init_timer a;
           ev_add_timer a (ulong cfg (jiffies w + DELAY_TIME cfg))]).
Proof.
  split; [|split].
  - intros tl Htl. now apply tiny_startup_reuse with (tl := tl).
  - intros Ht ->. now apply tiny_startup_enomem.
  - intros a junk Ht -> Ha. now apply tiny_startup_alloc.
Qed.

Lemma tiny_startup_allocates_once_witness :
  tiny_startup cfg16 (Some (16384, junk_timer)) port_addr (opened scenario_port) =
    Ok 0 (updt (opened scenario_port) timer_addr (armed cfg16 port_addr 1200))
       [pr_enter_ev "tiny_startup"; ev_init_timer timer_addr;
        ev_add_timer timer_addr 1400] /\
  tiny_startup cfg16 None port_addr scenario_world =
    Ok (-12) scenario_world [pr_enter_ev "tiny_startup"; ev_kmalloc 0] /\
  tiny_startup cfg16 (Some (timer_addr, junk_timer)) port_addr scenario_world =
    Ok 0 (updt (allocated scenario_world timer_addr junk_timer) timer_addr
            (armed cfg16 port_addr 1000))
       [pr_enter_ev "tiny_startup"; ev_kmalloc timer_addr;
        ev_init_timer timer_addr; ev_add_timer timer_addr 1200].
Proof.
  split; [|split].
  - apply (proj1 (tiny_startup_allocates_once cfg16 (opened scenario_port)
                    (Some (16384, junk_timer)) port_addr) idle_timer).
    concrete.
  - apply (proj1 (proj2 (tiny_startup_allocates_once cfg16 scenario_world
                           None port_addr))); reflexivity.
  - apply (proj2 (proj2 (tiny_startup_allocates_once cfg16 scenario_world
                           (Some (timer_addr, junk_timer)) port_addr))
             timer_addr junk_timer); [reflexivity|reflexivity|].
    vm_compute. discriminate.
Defined.

(** C7, as the code has it.  With the timer object allocated,
    [tiny_shutdown] unlinks it from the timer wheel and leaves the object
    allocated under the same pointer; when that timer is not queued the call
    changes nothing. *)
Theorem tiny_shutdown_cancels (w : world) (port : Z) (tl : timer_list) :
  timer_at w (timer w) tl ->
  tiny_shutdown port w =
    Ok tt (updt w (timer w) (with_pending tl false))
       [pr_enter_ev "tiny_shutdown"; ev_del_timer (timer w)] /\
  timer_at (updt w (timer w) (with_pending tl false)) (timer w)
    (with_pending tl false) /\
  (pending tl = false -> updt w (timer w) (with_pending tl false) = w).
Proof.
  intros Htl. split; [now apply tiny_shutdown_allocated|].
  split; [now apply timer_at_updt with (tl := tl)|].
  intros Hpend. replace (with_pending tl false) with tl
    by (destruct tl; simpl in *; now subst).
  now apply updt_same.
Qed.

Lemma tiny_shutdown_cancels_witness :
  tiny_shutdown port_addr (opened scenario_port) =
    Ok tt (opened scenario_port)
       [pr_enter_ev "tiny_shutdown"; ev_del_timer timer_addr] /\
  tiny_shutdown port_addr
      (updt (opened scenario_port) timer_addr (armed cfg16 port_addr 1200)) =
    Ok tt (updt (opened scenario_port) timer_addr
             (with_pending (armed cfg16 port_addr 1200) false))
       [pr_enter_ev "tiny_shutdown"; ev_del_timer timer_addr].
Proof.
  assert (Htl : timer_at (opened scenario_port)
                  (timer (opened scenario_port)) idle_timer) by concrete.
  destruct (tiny_shutdown_cancels (opened scenario_port) port_addr idle_timer Htl)
    as (Hrun & _ & Hsame).
  split.
  - rewrite Hrun, (Hsame eq_refl). reflexivity.
  - assert (Htl' : timer_at
              (updt (opened scenario_port) timer_addr (armed cfg16 port_addr 1200))
              (timer (updt (opened scenario_port) timer_addr
                        (armed cfg16 port_addr 1200)))
              (armed cfg16 port_addr 1200)) by concrete.
    destruct (tiny_shutdown_cancels _ port_addr _ Htl') as (Hrun' & _).
    rewrite Hrun'. reflexivity.
Defined.

(** C7, as stated, fails when the timer object was never allocated: the
    global pointer is still NULL, [tiny_shutdown] hands it to del_timer
    without a test, and del_timer reads through it. *)
Lemma tiny_shutdown_null_counterexample :
  timer scenario_world = 0 /\
  tiny_shutdown port_addr scenario_world = Oops null_deref.
Proof. split; reflexivity. Qed.

(** C8.  The timer object is not released at unload.  After one
    successful [tiny_startup] and the matching [tiny_shutdown], [tiny_exit]
    returns without calling kfree and the object is still allocated under
    the global pointer: the test on line 335 is [if (!timer)], so kfree is
    reached only with NULL, where it does nothing. *)
Theorem tiny_exit_leaks_timer :
  exists w1 tr1 w2 tr2 w3 tr3,
    tiny_startup cfg16 (Some (timer_addr, junk_timer)) port_addr scenario_world
      = Ok 0 w1 tr1 /\
    tiny_shutdown port_addr w1 = Ok tt w2 tr2 /\
    tiny_exit w2 = Ok tt w3 tr3 /\
    timer w3 = timer_addr /\
    is_Some (timers w3 !! timer_addr) /\
    count_ev is_kfree tr3 = 0%nat.
Proof.
  eexists _, _, _, _, _, _.
  split; [vm_compute; reflexivity|].
  split; [vm_compute; reflexivity|].
  split; [vm_compute; reflexivity|].
  split; [reflexivity|].
  split; [vm_compute; eexists; reflexivity|reflexivity].
Qed.

(** C9, as the code has it.  DELAY_TIME is HZ * 2 ticks, that is two
    seconds, whatever the tick rate.  Both [tiny_startup], when it succeeds,
    and a firing of [tiny_timer] on a live port leave the timer queued with
    expires = jiffies + 2 * HZ (as an unsigned long). *)
Theorem timer_delay_is_two_seconds (cfg : kconfig) :
  DELAY_TIME cfg = 2 * HZ cfg /\
  (forall w km port tl,
     timer_at w (timer w) tl ->
     exists w' tr tl',
       tiny_startup cfg km port w = Ok 0 w' tr /\
       timer_at w' (timer w') tl' /\ pending tl' = true /\
       expires tl' = ulong cfg (jiffies w + 2 * HZ cfg)) /\
  (forall w port a junk,
     timer w = 0 -> a <> 0 ->
     exists w' tr tl',
       tiny_startup cfg (Some (a, junk)) port w = Ok 0 w' tr /\
       timer_at w' (timer w') tl' /\ pending tl' = true /\
       expires tl' = ulong cfg (jiffies w + 2 * HZ cfg)) /\
  (forall w data p s t tl,
     points_to w data p -> state p = Some s -> tty s = Some t ->
     wf_xmit cfg (xmit s) ->
     timer_at w (timer w) tl -> pending tl = false ->
     exists w' tr tl',
       tiny_timer cfg data w = Ok tt w' tr /\
       timer_at w' (timer w') tl' /\ pending tl' = true /\
       expires tl' = ulong cfg (jiffies w + 2 * HZ cfg)).
Proof.
  assert (Hd : DELAY_TIME cfg = 2 * HZ cfg) by (unfold DELAY_TIME; lia).
  split; [exact Hd|]. rewrite <- Hd. split; [|split].
  - intros w km port tl Htl.
    eexists _, _, (armed cfg port (jiffies w)).
    split; [exact (tiny_startup_reuse cfg w km port tl Htl)|].
    split; [now apply timer_at_updt with (tl := tl)|split; reflexivity].
  - intros w port a junk Ht Ha.
    eexists _, _, (armed cfg port (jiffies w)).
    split; [exact (tiny_startup_alloc cfg w port a junk Ht Ha)|].
    split; [|split; reflexivity].
    split; [exact Ha|apply lookup_insert_eq].
  - intros w data p s t tl Hp Hs Ht Hwf Htl Hpend.
    set (queued := with_pending
           (with_expires tl (ulong cfg (jiffies w + DELAY_TIME cfg))) true).
    assert (Hp1 : points_to (updt w (timer w) queued) data p) by exact Hp.
    destruct (tiny_tx_chars_live cfg _ data p s t Hp1 Hs Ht Hwf)
      as (p' & tr & Hrun & _ & _).
    eexists _, _, queued. split.
    + rewrite (tiny_timer_live cfg w data p s t tl Hp Hs Ht Htl Hpend).
      fold queued. rewrite Hrun. reflexivity.
    + split; [|split; reflexivity].
      apply timer_at_upd. now apply timer_at_updt with (tl := tl).
Qed.

Lemma timer_delay_is_two_seconds_witness :
  DELAY_TIME cfg16 = 200 /\
  (exists w' tr tl',
     tiny_startup cfg16 None port_addr (opened scenario_port) = Ok 0 w' tr /\
     timer_at w' (timer w') tl' /\ pending tl' = true /\ expires tl' = 1400) /\
  (exists w' tr tl',
     tiny_startup cfg16 (Some (timer_addr, junk_timer)) port_addr scenario_world
       = Ok 0 w' tr /\
     timer_at w' (timer w') tl' /\ pending tl' = true /\ expires tl' = 1200) /\
  (exists w' tr tl',
     tiny_timer cfg16 port_addr (opened scenario_port) = Ok tt w' tr /\
     timer_at w' (timer w') tl' /\ pending tl' = true /\ expires tl' = 1400).
Proof.
  destruct (timer_delay_is_two_seconds cfg16) as (Hd & Hre & Hal & Hfire).
  assert (Htl : timer_at (opened scenario_port)
                  (timer (opened scenario_port)) idle_timer) by concrete.
  split; [exact Hd|]. split; [|split].
  - exact (Hre (opened scenario_port) None port_addr idle_timer Htl).
  - apply (Hal scenario_world port_addr timer_addr junk_timer);
      [reflexivity|vm_compute; discriminate].
  - assert (Hp : points_to (opened scenario_port) port_addr scenario_port)
      by concrete.
    assert (Hwf : wf_xmit cfg16 (xmit {| tty := Some tty0;
                    xmit := {| buf := ring16; head := 10; tail := 0 |} |}))
      by concrete.
    exact (Hfire (opened scenario_port) port_addr scenario_port _ tty0
             idle_timer Hp eq_refl eq_refl Hwf Htl eq_refl).
Defined.

(** C9, as stated, fails on a kernel with HZ = 100: [tiny_startup] at
    jiffies 1000 queues the timer for tick 1200 and a firing at jiffies 1200
    re-queues it for tick 1400, each 200 ticks ahead, not 2. *)
Lemma delay_in_ticks_counterexample :
  (exists w' tr tl',
     tiny_startup cfg16 (Some (timer_addr, junk_timer)) port_addr scenario_world
       = Ok 0 w' tr /\
     timers w' !! timer w' = Some tl' /\ pending tl' = true /\
     jiffies scenario_world = 1000 /\ expires tl' = 1200 /\
     expires tl' <> jiffies scenario_world + 2) /\
  (exists w' tr tl',
     tiny_timer cfg16 port_addr (opened scenario_port) = Ok tt w' tr /\
     timers w' !! timer w' = Some tl' /\ pending tl' = true /\
     jiffies (opened scenario_port) = 1200 /\ expires tl' = 1400 /\
     expires tl' <> jiffies (opened scenario_port) + 2).
Proof.
  split; eexists _, _, _;
    (split; [vm_compute; reflexivity|]);
    (split; [vm_compute; reflexivity|]);
    repeat (split; [reflexivity|]);
    vm_compute; discriminate.
Qed.

(** ** Repeated firings

    Once started on an open port the timer keeps itself going: every expiry
    injects one character and leaves the timer queued for the next one. *)

Lemma count_ev_tx_event f tr :
  (forall e, is_tx_event e = true -> f e = false) ->
  forallb is_tx_event tr = true -> count_ev f tr = 0%nat.
Proof.
  intros Hf Htr. unfold count_ev. now rewrite (filter_tx_event f tr Hf Htr).
Qed.

Lemma expire_timer_step cfg w port now :
  running cfg w port ->
  exists w' tr,
    expire_timer cfg now w = Ok tt w' tr /\
    running cfg w' port /\
    jiffies w' = now /\
    count_ev is_inject tr = 1%nat.
Proof.
  intros (p & tl & Hp & (s & t & Hs & Ht & Hwf) & Htl & Hpend & Hfn & Hdata).
  set (w0 := set_jiffies w now).
  assert (Htl0 : timer_at w0 (timer w0) tl) by exact Htl.
  set (w1 := updt w0 (timer w0) (with_pending tl false)).
  assert (Htl1 : timer_at w1 (timer w1) (with_pending tl false))
    by (apply timer_at_updt with (tl := tl); exact Htl0).
  assert (Hp1 : points_to w1 port p) by exact Hp.
  pose proof (tiny_timer_live cfg w1 port p s t _ Hp1 Hs Ht Htl1 eq_refl) as Hfire.
  set (queued := with_pending
         (with_expires (with_pending tl false)
            (ulong cfg (jiffies w1 + DELAY_TIME cfg))) true) in *.
  assert (Hp2 : points_to (updt w1 (timer w1) queued) port p) by exact Hp.
  destruct (tiny_tx_chars_live cfg _ port p s t Hp2 Hs Ht Hwf)
    as (p' & tr & Hrun & Htr & Hlive).
  rewrite Hrun in Hfire.
  exists (upd (updt w1 (timer w1) queued) port p'),
    (rx_prefix cfg w1 (tty_port t) ++ tr).
  split.
  - unfold expire_timer.
    rewrite (bind_Ok_nil _ _ _ _ _ (get_ok w)).
    rewrite (bind_Ok_nil _ _ _ _ _ (read_timer_ok _ _ _ Htl)).
    rewrite Hpend.
    rewrite (bind_Ok_nil _ _ _ _ _ (eq_refl : put w0 w = Ok tt w0 [])).
    rewrite (bind_Ok_nil _ _ _ _ _ (write_timer_ok _ _ _ _ Htl0)).
    rewrite Hfn, Hdata. exact Hfire.
  - split; [|split; [reflexivity|]].
    + exists p', queued.
      split; [apply points_to_upd with (p := p); exact Hp2|].
      split; [exact Hlive|].
      split; [apply timer_at_upd, timer_at_updt with (tl := with_pending tl false);
              exact Htl1|].
      split; [reflexivity|]. split; [exact Hfn|exact Hdata].
    + rewrite count_ev_app, (count_ev_tx_event is_inject tr); [reflexivity| |exact Htr].
      now intros [].
Qed.

(* [n] expiries in a row inject [n] characters and leave the timer queued *)
Lemma expirations_inject cfg port nows : forall w,
  running cfg w port ->
  exists w' tr,
    expirations cfg nows w = Ok tt w' tr /\
    running cfg w' port /\
    count_ev is_inject tr = length nows.
Proof.
  induction nows as [|now rest IH]; intros w Hrun.
  - exists w, []. split; [reflexivity|]. split; [exact Hrun|reflexivity].
  - destruct (expire_timer_step cfg w port now Hrun)
      as (w1 & tr1 & Hstep & Hrun1 & _ & Hcnt1).
    destruct (IH w1 Hrun1) as (w2 & tr2 & Hrest & Hrun2 & Hcnt2).
    exists w2, (tr1 ++ tr2). split.
    + cbn [expirations]. rewrite (bind_Ok _ _ _ _ _ _ Hstep), Hrest. reflexivity.
    + split; [exact Hrun2|].
      rewrite count_ev_app, Hcnt1, Hcnt2. reflexivity.
Qed.

(* a successful start on an open port sets the timer going *)
Lemma tiny_startup_running cfg w km port p tl :
  points_to w port p -> live cfg p -> timer_at w (timer w) tl ->
  exists w' tr,
    tiny_startup cfg km port w = Ok 0 w' tr /\ running cfg w' port.
Proof.
  intros Hp Hlive Htl. eexists _, _.
  split; [exact (tiny_startup_reuse cfg w km port tl Htl)|].
  exists p, (armed cfg port (jiffies w)).
  split; [exact Hp|]. split; [exact Hlive|].
  split; [now apply timer_at_updt with (tl := tl)|].
  repeat split.
Qed.

(* after stop nothing is queued, so an expiry does nothing *)
Lemma expire_timer_after_shutdown cfg w port tl now :
  timer_at w (timer w) tl ->
  exists w',
    tiny_shutdown port w =
      Ok tt w' [pr_enter_ev "tiny_shutdown"; ev_del_timer (timer w)] /\
    expire_timer cfg now w' = Ok tt w' [].
Proof.
  intros Htl. eexists. split; [exact (tiny_shutdown_allocated w port tl Htl)|].
  pose proof (timer_at_updt w (timer w) tl (with_pending tl false) Htl) as H1.
  unfold expire_timer.
  rewrite (bind_Ok_nil _ _ _ _ _ (get_ok _)).
  cbn [timer updt set_timers].
  rewrite (bind_Ok_nil _ _ _ _ _ (read_timer_ok _ _ _ H1)).
  reflexivity.
Qed.

(** ** Totality

    Fuel is only a device to write the loop: every driver function returns
    or faults, whatever the state of memory. *)

Create HintDb total.

Lemma terminates_ret {A} (a : A) : terminates (ret a).
Proof. intros w. discriminate. Qed.

Lemma terminates_oops {A} e : terminates (@oops A e).
Proof. intros w. discriminate. Qed.

Lemma terminates_emit e : terminates (emit e).
Proof. intros w. discriminate. Qed.

Lemma terminates_get : terminates get.
Proof. intros w. discriminate. Qed.

Lemma terminates_put w : terminates (put w).
Proof. intros w'. discriminate. Qed.

Lemma terminates_read_port port : terminates (read_port port).
Proof.
  intros w. unfold read_port.
  destruct (port =? 0); [discriminate|].
  destruct (ports w !! port); discriminate.
Qed.

Lemma terminates_read_timer t : terminates (read_timer t).
Proof.
  intros w. unfold read_timer.
  destruct (t =? 0); [discriminate|].
  destruct (timers w !! t); discriminate.
Qed.

Lemma terminates_bind {A B} (m : M A) (f : A -> M B) :
  terminates m -> (forall a, terminates (f a)) -> terminates (bind m f).
Proof.
  intros Hm Hf w. unfold bind.
  destruct (m w) as [a w1 tr1| |] eqn:E; [|discriminate|now apply Hm in E].
  destruct (f a w1) eqn:E'; [discriminate|discriminate|now apply Hf in E'].
Qed.

#[local] Hint Resolve terminates_ret terminates_oops terminates_emit
  terminates_get terminates_put terminates_read_port terminates_read_timer
  : total.

Ltac total_step :=
  match goal with
  | |- terminates (bind _ _) => apply terminates_bind; [|intros]
  | |- terminates (match ?x with _ => _ end) => destruct x
  | |- terminates _ => solve [auto with total]
  end.

Ltac total := repeat total_step.

Lemma terminates_write_port port p : terminates (write_port port p).
Proof. unfold write_port. total. Qed.

Lemma terminates_read_state port : terminates (read_state port).
Proof. unfold read_state. total. Qed.

#[local] Hint Resolve terminates_write_port terminates_read_state : total.

Lemma terminates_write_state port s : terminates (write_state port s).
Proof. unfold write_state. total. Qed.

Lemma terminates_read_xmit port : terminates (read_xmit port).
Proof. unfold read_xmit. total. Qed.

#[local] Hint Resolve terminates_write_state terminates_read_xmit : total.

Lemma terminates_set_xmit_tail port v : terminates (set_xmit_tail port v).
Proof. unfold set_xmit_tail, write_xmit. total. Qed.

Lemma terminates_icount_tx_incr port : terminates (icount_tx_incr port).
Proof. unfold icount_tx_incr. total. Qed.

Lemma terminates_set_x_char port c : terminates (set_x_char port c).
Proof. unfold set_x_char. total. Qed.

Lemma terminates_read_buf c i : terminates (read_buf c i).
Proof. unfold read_buf. destruct (i <? 0); total. Qed.

Lemma terminates_uart_tx_stopped port : terminates (uart_tx_stopped port).
Proof. unfold uart_tx_stopped. total. Qed.

Lemma terminates_write_timer t tl : terminates (write_timer t tl).
Proof. unfold write_timer. total. Qed.

#[local] Hint Resolve terminates_set_xmit_tail terminates_icount_tx_incr
  terminates_set_x_char terminates_read_buf terminates_uart_tx_stopped
  terminates_write_timer : total.

Lemma terminates_add_timer t : terminates (add_timer t).
Proof. unfold add_timer. total. Qed.

Lemma terminates_set_timer_expires v : terminates (set_timer_expires v).
Proof. unfold set_timer_expires. total. Qed.

#[local] Hint Resolve terminates_add_timer terminates_set_timer_expires : total.

(* fuel for max(1, count) iterations is enough *)
Lemma terminates_tx_loop cfg fuel : forall port count,
  Z.max 1 count <= Z.of_nat fuel -> terminates (tx_loop cfg fuel port count).
Proof.
  induction fuel as [|fuel IH]; intros port count Hf; [lia|].
  cbn [tx_loop].
  repeat (apply terminates_bind; [solve [auto with total]|intros]).
  destruct (uart_circ_empty _); [total|].
  destruct (Z.gtb_spec (count - 1) 0); [apply IH; lia|total].
Qed.

Lemma terminates_tiny_tx_chars cfg port : terminates (tiny_tx_chars cfg port).
Proof.
  unfold tiny_tx_chars, pr_enter, tiny_stop_tx, uart_write_wakeup, pr_enter.
  total; try (apply terminates_tx_loop; lia).
  all: try match goal with
           | |- terminates (if ?b then _ else _) => destruct b; total
           end.
Qed.

#[local] Hint Resolve terminates_tiny_tx_chars : total.

Lemma terminates_tiny_timer cfg data : terminates (tiny_timer cfg data).
Proof.
  unfold tiny_timer, pr_enter, tty_insert_flip_char, tty_flip_buffer_push.
  total.
Qed.

Lemma terminates_tiny_startup cfg km port : terminates (tiny_startup cfg km port).
Proof.
  unfold tiny_startup, pr_enter, kmalloc, init_timer, set_timer_data,
    set_timer_function.
  total.
Qed.

Lemma terminates_tiny_shutdown port : terminates (tiny_shutdown port).
Proof. unfold tiny_shutdown, pr_enter, del_timer. total. Qed.

Lemma terminates_tiny_exit : terminates tiny_exit.
Proof.
  unfold tiny_exit, uart_remove_one_port, uart_unregister_driver, kfree.
  total.
Qed.

(** ** Further properties of the transmit drain *)

Lemma drain_port_0 cfg p s :
  state p = Some s -> wf_xmit cfg (xmit s) -> 0 <= icount_tx p < 2 ^ 32 ->
  drain_port cfg p 0 = p.
Proof.
  intros Hs (Hk & _ & Ht & _) Htx. destruct p as [xc fs tx hw st].
  simpl in *. subst st. unfold drain_port, u32. simpl.
  rewrite !Z.add_0_r, !Z.mod_small by lia.
  destruct s as [ty [b h t]]. reflexivity.
Qed.

Lemma sent_ring_bytes cfg k : forall c,
  0 < UART_XMIT_SIZE cfg -> 0 <= tail c < UART_XMIT_SIZE cfg ->
  sent cfg c k = ring_bytes cfg c k.
Proof.
  unfold ring_bytes.
  induction k as [|k IH]; intros c Hn Ht; [reflexivity|].
  cbn [sent seq map]. f_equal.
  - now rewrite Z.add_0_r, Z.mod_small.
  - rewrite IH by (cbn [tail with_tail]; auto using Z.mod_pos_bound).
    rewrite <- seq_shift, map_map. apply map_ext. intros i.
    cbn [tail buf with_tail].
    rewrite Zplus_mod_idemp_l. do 3 f_equal. lia.
Qed.

Lemma filter_xmit_wrote_map l :
  List.filter is_xmit_wrote (map pr_info_xmit l) = map pr_info_xmit l.
Proof. induction l as [|c l IH]; simpl; [reflexivity|]. now rewrite IH. Qed.

Lemma pending_nonempty cfg c :
  wf_xmit cfg c -> uart_circ_empty c = false ->
  1 <= uart_circ_chars_pending cfg c.
Proof.
  intros Hwf He. pose proof Hwf as (Hk & _).
  pose proof (pending_range cfg c Hk).
  pose proof (proj1 (pending_zero_iff cfg _ Hwf)).
  apply Z.eqb_neq in He. lia.
Qed.

Lemma pending_empty cfg c :
  wf_xmit cfg c -> uart_circ_empty c = true ->
  uart_circ_chars_pending cfg c = 0.
Proof.
  intros Hwf He. apply Z.eqb_eq in He.
  now apply (pending_zero_iff cfg _ Hwf).
Qed.

Lemma empty_iff_pending cfg c :
  wf_xmit cfg c ->
  uart_circ_empty c = (uart_circ_chars_pending cfg c =? 0).
Proof.
  intros Hwf. destruct (uart_circ_empty c) eqn:He.
  - now rewrite (pending_empty cfg c Hwf He).
  - pose proof (pending_nonempty cfg c Hwf He).
    symmetry. apply Z.eqb_neq. lia.
Qed.

(** X1.  The drain is first in, first out: the bytes one call writes out
    are, in this order, buf[tail], buf[tail + 1], ..., the indices taken
    modulo the capacity, as many as the call removes. *)
Theorem tiny_tx_chars_fifo
    (cfg : kconfig) (w : world) (port : Z)
    (p : uart_port) (s : uart_state) (t : tty_struct) :
  points_to w port p -> x_char p = 0 -> state p = Some s ->
  wf_xmit cfg (xmit s) ->
  tty s = Some t -> (stopped t || hw_stopped p)%bool = false ->
  exists w' tr,
    tiny_tx_chars cfg port w = Ok tt w' tr /\
    List.filter is_xmit_wrote tr =
      map pr_info_xmit
          (ring_bytes cfg (xmit s) (Z.to_nat (drain_len cfg p s))).
Proof.
  intros Hp Hx Hs Hwf Ht Hst. pose proof Hwf as (Hk & _ & Htl & _).
  pose proof (xmit_size_pos cfg Hk) as Hn.
  destruct (uart_circ_empty (xmit s)) eqn:He.
  - exists w, [pr_enter_ev "tiny_tx_chars"; pr_enter_ev "tiny_stop_tx"].
    split; [now apply tiny_tx_chars_empty with (p := p) (s := s)|].
    unfold drain_len. rewrite (pending_empty cfg _ Hwf He).
    replace (Z.min 0 _) with 0 by lia. reflexivity.
  - pose proof (tiny_tx_chars_drain cfg w port p s t Hp Hx Hs Hwf He Ht Hst)
      as Hrun.
    cbv zeta in Hrun. eexists _, _. split; [exact Hrun|].
    cbn [List.filter is_xmit_wrote].
    rewrite !List.filter_app, filter_xmit_wrote_map.
    rewrite (sent_ring_bytes cfg _ _ Hn Htl).
    destruct (Z.ltb _ _), (Z.eqb _ _); cbn; now rewrite ?app_nil_r.
Qed.

Lemma tiny_tx_chars_fifo_witness :
  exists w' tr,
    tiny_tx_chars cfg16 port_addr (boot (mk_port 0 6 2 14)) = Ok tt w' tr /\
    List.filter is_xmit_wrote tr =
      [pr_info_xmit 111; pr_info_xmit 112; pr_info_xmit 97].
Proof.
  assert (Hp : points_to (boot (mk_port 0 6 2 14)) port_addr (mk_port 0 6 2 14))
    by concrete.
  assert (Hwf : wf_xmit cfg16 (xmit {| tty := Some tty0;
                  xmit := {| buf := ring16; head := 2; tail := 14 |} |}))
    by concrete.
  exact (tiny_tx_chars_fifo cfg16 _ port_addr (mk_port 0 6 2 14) _ tty0
           Hp eq_refl eq_refl Hwf eq_refl eq_refl).
Defined.

(** X2.  Whatever branch it takes, a call of the drain on an open port
    keeps the port open and the ring well formed, leaves the producing
    index, the contents, the tty, fifosize and hw_stopped alone, keeps the
    counter a 32-bit value and never lets the pending count grow; in kernel
    memory only that one port changes. *)
Theorem tiny_tx_chars_invariant
    (cfg : kconfig) (w : world) (port : Z)
    (p : uart_port) (s : uart_state) (t : tty_struct) :
  points_to w port p -> state p = Some s -> tty s = Some t ->
  wf_xmit cfg (xmit s) -> 0 <= icount_tx p < 2 ^ 32 ->
  exists w' tr p' s',
    tiny_tx_chars cfg port w = Ok tt w' tr /\
    points_to w' port p' /\ state p' = Some s' /\
    wf_xmit cfg (xmit s') /\ tty s' = Some t /\
    head (xmit s') = head (xmit s) /\ buf (xmit s') = buf (xmit s) /\
    uart_circ_chars_pending cfg (xmit s')
      <= uart_circ_chars_pending cfg (xmit s) /\
    0 <= icount_tx p' < 2 ^ 32 /\
    fifosize p' = fifosize p /\ hw_stopped p' = hw_stopped p /\
    (forall q, q <> port -> ports w' !! q = ports w !! q) /\
    timers w' = timers w /\ timer w' = timer w /\ jiffies w' = jiffies w.
Proof.
  intros Hp Hs Ht Hwf Htx.
  assert (Hu : forall x, 0 <= u32 x < 2 ^ 32)
    by (intros x; unfold u32; apply Z.mod_pos_bound; lia).
  assert (Hfr : forall p', forall q, q <> port ->
            ports (upd w port p') !! q = ports w !! q)
    by (intros p' q Hq; simpl; now apply lookup_insert_ne).
  pose proof Hp as [Hp1 Hp2]. pose proof Hwf as (Hk & Hh & Htl & Hl).
  destruct (Z.eqb_spec (x_char p) 0) as [Hx|Hx].
  - destruct (uart_circ_empty (xmit s)) eqn:He;
      [|destruct (stopped t || hw_stopped p)%bool eqn:Hst].
    + exists w, [pr_enter_ev "tiny_tx_chars"; pr_enter_ev "tiny_stop_tx"], p, s.
      split; [now apply tiny_tx_chars_empty with (p := p) (s := s)|].
      repeat split; auto; lia.
    + exists w, [pr_enter_ev "tiny_tx_chars"; pr_enter_ev "tiny_stop_tx"], p, s.
      split; [now apply tiny_tx_chars_stopped with (p := p) (s := s) (t := t)|].
      repeat split; auto; lia.
    + pose proof (tiny_tx_chars_drain cfg w port p s t Hp Hx Hs Hwf He Ht Hst)
        as Hrun.
      cbv zeta in Hrun.
      pose proof (pending_nonempty cfg _ Hwf He) as Hn.
      assert (Hr : 0 <= drain_len cfg p s
                     <= uart_circ_chars_pending cfg (xmit s))
        by (unfold drain_len; lia).
      destruct (ring_advance cfg _ _ Hwf Hr) as [Hwf' Hn'].
      eexists _, _, (drain_port cfg p (drain_len cfg p s)), _.
      split; [exact Hrun|].
      split; [now apply points_to_upd with (p := p)|].
      split; [exact (drain_port_state cfg p _ s Hs)|].
      cbn [xmit with_xmit tty]. rewrite Hn'.
      destruct Hwf' as (_ & Hh' & Htl' & Hl').
      repeat split; auto; try apply Hu; lia.
  - exists (upd w port (with_x_char (with_tx p (u32 (icount_tx p + 1))) 0)),
      [pr_enter_ev "tiny_tx_chars"; pr_info_x_char (x_char p)],
      (with_x_char (with_tx p (u32 (icount_tx p + 1))) 0), s.
    split; [now apply tiny_tx_chars_x_char|].
    split; [now apply points_to_upd with (p := p)|].
    repeat split; auto; try apply Hu; lia.
Qed.

Lemma tiny_tx_chars_invariant_witness :
  exists w' tr p' s',
    tiny_tx_chars cfg16 port_addr scenario_world = Ok tt w' tr /\
    points_to w' port_addr p' /\ state p' = Some s' /\
    wf_xmit cfg16 (xmit s') /\
    head (xmit s') = 10 /\ buf (xmit s') = ring16 /\
    uart_circ_chars_pending cfg16 (xmit s') <= 10.
Proof.
  assert (Hp : points_to scenario_world port_addr scenario_port) by concrete.
  assert (Hwf : wf_xmit cfg16 (xmit {| tty := Some tty0;
                  xmit := {| buf := ring16; head := 10; tail := 0 |} |}))
    by concrete.
  assert (Htx : 0 <= icount_tx scenario_port < 2 ^ 32) by concrete.
  destruct (tiny_tx_chars_invariant cfg16 scenario_world port_addr
              scenario_port _ tty0 Hp eq_refl eq_refl Hwf Htx)
    as (w' & tr & p' & s' & Hrun & Hp' & Hs' & Hwf' & _ & Hh & Hb & Hn & _).
  exists w', tr, p', s'.
  split; [exact Hrun|]. split; [exact Hp'|]. split; [exact Hs'|].
  split; [exact Hwf'|]. split; [exact Hh|]. split; [exact Hb|exact Hn].
Defined.

(** X3.  With no x_char pending, a call of the drain that finds the ring
    empty, or transmission stopped, changes nothing in kernel memory and
    only reports through tiny_stop_tx.  With the ring empty the tty is not
    even looked at (the || short-circuits), so that case is safe with no
    tty attached. *)
Theorem tiny_tx_chars_halted
    (cfg : kconfig) (w : world) (port : Z) (p : uart_port) (s : uart_state) :
  points_to w port p -> x_char p = 0 -> state p = Some s ->
  (uart_circ_empty (xmit s) = true \/
   exists t, tty s = Some t /\ (stopped t || hw_stopped p)%bool = true) ->
  tiny_tx_chars cfg port w =
    Ok tt w [pr_enter_ev "tiny_tx_chars"; pr_enter_ev "tiny_stop_tx"].
Proof.
  intros Hp Hx Hs [He|(t & Ht & Hst)].
  - now apply tiny_tx_chars_empty with (p := p) (s := s).
  - destruct (uart_circ_empty (xmit s)) eqn:He.
    + now apply tiny_tx_chars_empty with (p := p) (s := s).
    + now apply tiny_tx_chars_stopped with (p := p) (s := s) (t := t).
Qed.

Lemma tiny_tx_chars_halted_witness :
  tiny_tx_chars cfg16 port_addr (boot port_stopped) =
    Ok tt (boot port_stopped)
       [pr_enter_ev "tiny_tx_chars"; pr_enter_ev "tiny_stop_tx"] /\
  tiny_tx_chars cfg16 port_addr
      (boot {| x_char := 0; fifosize := 16; icount_tx := 0; hw_stopped := false;
               state := Some {| tty := None;
                                xmit := {| buf := ring16; head := 3; tail := 3 |} |} |}) =
    Ok tt
      (boot {| x_char := 0; fifosize := 16; icount_tx := 0; hw_stopped := false;
               state := Some {| tty := None;
                                xmit := {| buf := ring16; head := 3; tail := 3 |} |} |})
      [pr_enter_ev "tiny_tx_chars"; pr_enter_ev "tiny_stop_tx"].
Proof.
  split.
  - apply (tiny_tx_chars_halted cfg16 (boot port_stopped) port_addr port_stopped
             {| tty := Some {| tty_port := 12288; stopped := true |};
                xmit := {| buf := ring16; head := 10; tail := 0 |} |});
      [concrete|reflexivity|reflexivity|].
    right. eexists. split; reflexivity.
  - eapply tiny_tx_chars_halted; [concrete|reflexivity|reflexivity|].
    left. reflexivity.
Defined.

(** X4.  tiny_stop_tx is reached exactly once per call when no x_char is
    pending and either transmission is stopped or the ring is empty once
    the call is over, and not at all otherwise: it marks the end of
    transmission, not every firing. *)
Theorem tiny_stop_tx_iff_done
    (cfg : kconfig) (w : world) (port : Z)
    (p : uart_port) (s : uart_state) (t : tty_struct) :
  points_to w port p -> state p = Some s -> wf_xmit cfg (xmit s) ->
  tty s = Some t ->
  exists w' tr p' s',
    tiny_tx_chars cfg port w = Ok tt w' tr /\
    ports w' !! port = Some p' /\ state p' = Some s' /\
    count_ev is_stop_tx tr =
      if (x_char p =? 0)
         && ((stopped t || hw_stopped p) || uart_circ_empty (xmit s'))
      then 1%nat else 0%nat.
Proof.
  intros Hp Hs Hwf Ht. pose proof Hp as [_ Hl].
  destruct (Z.eqb_spec (x_char p) 0) as [Hx|Hx].
  - destruct (uart_circ_empty (xmit s)) eqn:He;
      [|destruct (stopped t || hw_stopped p)%bool eqn:Hst].
    + exists w, [pr_enter_ev "tiny_tx_chars"; pr_enter_ev "tiny_stop_tx"], p, s.
      split; [now apply tiny_tx_chars_empty with (p := p) (s := s)|].
      rewrite He, orb_true_r. repeat split; assumption.
    + exists w, [pr_enter_ev "tiny_tx_chars"; pr_enter_ev "tiny_stop_tx"], p, s.
      split; [now apply tiny_tx_chars_stopped with (p := p) (s := s) (t := t)|].
      repeat split; assumption.
    + pose proof (tiny_tx_chars_drain cfg w port p s t Hp Hx Hs Hwf He Ht Hst)
        as Hrun.
      cbv zeta in Hrun.
      pose proof (pending_nonempty cfg _ Hwf He) as Hn.
      assert (Hr : 0 <= drain_len cfg p s
                     <= uart_circ_chars_pending cfg (xmit s))
        by (unfold drain_len; lia).
      destruct (ring_advance cfg _ _ Hwf Hr) as [Hwf' Hn'].
      eexists _, _, (drain_port cfg p (drain_len cfg p s)), _.
      split; [exact Hrun|].
      split; [apply lookup_insert_eq|].
      split; [exact (drain_port_state cfg p _ s Hs)|].
      cbn [xmit with_xmit andb orb].
      rewrite (empty_iff_pending cfg _ Hwf'), Hn'.
      change (pr_enter_ev "tiny_tx_chars" :: ?l)
        with ([pr_enter_ev "tiny_tx_chars"] ++ l).
      rewrite !count_ev_app, count_ev_xmit_other by reflexivity.
      destruct (Z.ltb _ _), (Z.eqb _ _); reflexivity.
  - exists (upd w port (with_x_char (with_tx p (u32 (icount_tx p + 1))) 0)),
      [pr_enter_ev "tiny_tx_chars"; pr_info_x_char (x_char p)],
      (with_x_char (with_tx p (u32 (icount_tx p + 1))) 0), s.
    split; [now apply tiny_tx_chars_x_char|].
    split; [apply lookup_insert_eq|].
    split; [exact Hs|reflexivity].
Qed.

Lemma tiny_stop_tx_iff_done_witness :
  exists w' tr p' s',
    tiny_tx_chars cfg16 port_addr scenario_world = Ok tt w' tr /\
    ports w' !! port_addr = Some p' /\ state p' = Some s' /\
    count_ev is_stop_tx tr =
      if uart_circ_empty (xmit s') then 1%nat else 0%nat.
Proof.
  assert (Hp : points_to scenario_world port_addr scenario_port) by concrete.
  assert (Hwf : wf_xmit cfg16 (xmit {| tty := Some tty0;
                  xmit := {| buf := ring16; head := 10; tail := 0 |} |}))
    by concrete.
  exact (tiny_stop_tx_iff_done cfg16 scenario_world port_addr
           scenario_port _ tty0 Hp eq_refl Hwf eq_refl).
Defined.

Lemma filter_xmit_other f l :
  (forall c, f (pr_info_xmit c) = false) ->
  List.filter f (map pr_info_xmit l) = [].
Proof.
  intros Hf. induction l as [|c l IH]; simpl; [reflexivity|]. now rewrite Hf.
Qed.

Lemma with_tail_same c : with_tail c (tail c) = c.
Proof. now destruct c. Qed.

Lemma sent_app cfg a : forall c b,
  0 < UART_XMIT_SIZE cfg -> 0 <= tail c < UART_XMIT_SIZE cfg ->
  sent cfg c (a + b) =
  sent cfg c a ++
  sent cfg (with_tail c ((tail c + Z.of_nat a) mod UART_XMIT_SIZE cfg)) b.
Proof.
  induction a as [|a IH]; intros c b Hn Ht.
  - cbn [Nat.add sent app Z.of_nat].
    now rewrite Z.add_0_r, Z.mod_small, with_tail_same.
  - cbn [Nat.add sent app]. f_equal.
    rewrite IH by (cbn [tail with_tail]; auto using Z.mod_pos_bound).
    cbn [tail with_tail]. rewrite Zplus_mod_idemp_l.
    replace (tail c + 1 + Z.of_nat a) with (tail c + Z.of_nat (S a)) by lia.
    reflexivity.
Qed.

(* one call of the drain with transmission running and no x_char pending,
   the empty ring included *)
Lemma tiny_tx_chars_step cfg w port p s t :
  points_to w port p -> x_char p = 0 -> state p = Some s ->
  wf_xmit cfg (xmit s) -> 0 <= icount_tx p < 2 ^ 32 ->
  tty s = Some t -> (stopped t || hw_stopped p)%bool = false ->
  exists tr,
    tiny_tx_chars cfg port w =
      Ok tt (upd w port (drain_port cfg p (drain_len cfg p s))) tr /\
    List.filter is_xmit_wrote tr =
      map pr_info_xmit (sent cfg (xmit s) (Z.to_nat (drain_len cfg p s))) /\
    List.filter is_x_char_wrote tr = [].
Proof.
  intros Hp Hx Hs Hwf Htx Ht Hst.
  destruct (uart_circ_empty (xmit s)) eqn:He.
  - exists [pr_enter_ev "tiny_tx_chars"; pr_enter_ev "tiny_stop_tx"].
    unfold drain_len. rewrite (pending_empty cfg _ Hwf He).
    replace (Z.min 0 _) with 0 by lia.
    rewrite (drain_port_0 cfg p s Hs Hwf Htx), (upd_same _ _ _ Hp).
    split; [now apply tiny_tx_chars_empty with (p := p) (s := s)|].
    split; reflexivity.
  - pose proof (tiny_tx_chars_drain cfg w port p s t Hp Hx Hs Hwf He Ht Hst)
      as Hrun.
    cbv zeta in Hrun. eexists. split; [exact Hrun|]. split.
    + cbn [List.filter is_xmit_wrote].
      rewrite !List.filter_app, filter_xmit_wrote_map.
      destruct (Z.ltb _ _), (Z.eqb _ _); cbn; now rewrite ?app_nil_r.
    + cbn [List.filter is_x_char_wrote].
      rewrite !List.filter_app, filter_xmit_other by reflexivity.
      destruct (Z.ltb _ _), (Z.eqb _ _); reflexivity.
Qed.

(* [k] calls in a row, with nothing queued in between *)
Lemma drains_run cfg port k : forall w p s t,
  points_to w port p -> x_char p = 0 -> state p = Some s ->
  wf_xmit cfg (xmit s) -> 0 <= icount_tx p < 2 ^ 32 ->
  tty s = Some t -> (stopped t || hw_stopped p)%bool = false ->
  exists tr,
    drains cfg port k w =
      Ok tt
         (upd w port
            (drain_port cfg p
               (Z.min (uart_circ_chars_pending cfg (xmit s))
                      (Z.of_nat k * Z.max 1 (Z.shiftr (fifosize p) 1)))))
         tr /\
    List.filter is_xmit_wrote tr =
      map pr_info_xmit
          (sent cfg (xmit s)
             (Z.to_nat
                (Z.min (uart_circ_chars_pending cfg (xmit s))
                       (Z.of_nat k * Z.max 1 (Z.shiftr (fifosize p) 1))))).
Proof.
  induction k as [|k IH]; intros w p s t Hp Hx Hs Hwf Htx Ht Hst;
    pose proof Hwf as (Hk & Hh & Htl & Hl);
    pose proof (pending_range cfg (xmit s) Hk) as Hn;
    pose proof (xmit_size_pos cfg Hk) as Hsz.
  - exists []. replace (Z.min _ _) with 0 by lia.
    rewrite (drain_port_0 cfg p s Hs Hwf Htx), (upd_same _ _ _ Hp).
    split; reflexivity.
  - destruct (tiny_tx_chars_step cfg w port p s t Hp Hx Hs Hwf Htx Ht Hst)
      as (tr1 & Hrun1 & Hf1 & _).
    set (n := uart_circ_chars_pending cfg (xmit s)) in *.
    set (q := Z.max 1 (Z.shiftr (fifosize p) 1)) in *.
    assert (Hr1 : drain_len cfg p s = Z.min n q) by reflexivity.
    rewrite Hr1 in *.
    set (r1 := Z.min n q) in *.
    assert (Hr : 0 <= r1 <= n) by lia.
    destruct (ring_advance cfg _ _ Hwf Hr) as [Hwf1 Hn1]. fold n in Hn1.
    set (p1 := drain_port cfg p r1) in *.
    set (s1 := with_xmit s (with_tail (xmit s)
                 ((tail (xmit s) + r1) mod UART_XMIT_SIZE cfg))) in *.
    assert (Hs1 : state p1 = Some s1) by exact (drain_port_state cfg p r1 s Hs).
    assert (Htx1 : 0 <= icount_tx p1 < 2 ^ 32)
      by (cbn; unfold u32; apply Z.mod_pos_bound; lia).
    destruct (IH (upd w port p1) p1 s1 t
                (points_to_upd _ _ _ _ Hp) Hx Hs1 Hwf1 Htx1 Ht Hst)
      as (tr2 & Hrun2 & Hf2).
    cbn [xmit with_xmit s1] in Hrun2, Hf2. rewrite Hn1 in Hrun2, Hf2.
    change (fifosize p1) with (fifosize p) in Hrun2, Hf2. fold q in Hrun2, Hf2.
    set (r2 := Z.min (n - r1) (Z.of_nat k * q)) in *.
    assert (Hsum : Z.min n (Z.of_nat (S k) * q) = r1 + r2) by lia.
    exists (tr1 ++ tr2). split.
    + cbn [drains]. rewrite (bind_Ok _ _ _ _ _ _ Hrun1), Hrun2.
      rewrite upd_upd. unfold p1. rewrite drain_port_add by assumption.
      now rewrite Hsum.
    + rewrite List.filter_app, Hf1, Hf2, Hsum, <- map_app.
      replace (Z.to_nat (r1 + r2)) with (Z.to_nat r1 + Z.to_nat r2)%nat by lia.
      rewrite (sent_app cfg (Z.to_nat r1) (xmit s) (Z.to_nat r2) Hsz Htl).
      rewrite Z2Nat.id by lia. reflexivity.
Qed.

(** X5.  Repeated drains, with nothing queued in between, empty the ring
    at the rate of max(1, fifosize >> 1) bytes per call: after [k] calls
    min(pending, k * quota) bytes have gone, all of them in queue order
    across the calls, the counter and the consuming index have moved by
    that many, and the ring is empty as soon as k * quota covers what was
    pending. *)
Theorem drains_empty_the_ring
    (cfg : kconfig) (w : world) (port : Z) (k : nat)
    (p : uart_port) (s : uart_state) (t : tty_struct) :
  points_to w port p -> x_char p = 0 -> state p = Some s ->
  wf_xmit cfg (xmit s) -> 0 <= icount_tx p < 2 ^ 32 ->
  tty s = Some t -> (stopped t || hw_stopped p)%bool = false ->
  let n := uart_circ_chars_pending cfg (xmit s) in
  let q := Z.max 1 (Z.shiftr (fifosize p) 1) in
  let r := Z.min n (Z.of_nat k * q) in
  exists w' tr p',
    drains cfg port k w = Ok tt w' tr /\
    ports w' !! port = Some p' /\
    List.filter is_xmit_wrote tr =
      map pr_info_xmit (ring_bytes cfg (xmit s) (Z.to_nat r)) /\
    icount_tx p' = u32 (icount_tx p + r) /\
    pending_at cfg w' port = Some (n - r) /\
    (n <= Z.of_nat k * q -> pending_at cfg w' port = Some 0).
Proof.
  intros Hp Hx Hs Hwf Htx Ht Hst n q r.
  pose proof Hwf as (Hk & Hh & Htl & Hl).
  pose proof (pending_range cfg (xmit s) Hk) as Hn.
  pose proof (xmit_size_pos cfg Hk) as Hsz.
  destruct (drains_run cfg port k w p s t Hp Hx Hs Hwf Htx Ht Hst)
    as (tr & Hrun & Hf).
  fold n q r in Hrun, Hf.
  assert (Hr : 0 <= r <= n) by lia.
  destruct (ring_advance cfg _ _ Hwf Hr) as [_ Hn']. fold n in Hn'.
  assert (Hpend : pending_at cfg (upd w port (drain_port cfg p r)) port
                  = Some (n - r)).
  { unfold pending_at. cbn [ports upd set_ports].
    rewrite lookup_insert_eq, (drain_port_state cfg p r s Hs).
    cbn [xmit with_xmit]. now rewrite Hn'. }
  exists (upd w port (drain_port cfg p r)), tr, (drain_port cfg p r).
  split; [exact Hrun|].
  split; [apply lookup_insert_eq|].
  split; [now rewrite Hf, (sent_ring_bytes cfg _ _ Hsz Htl)|].
  split; [reflexivity|].
  split; [exact Hpend|].
  intros Hle. rewrite Hpend. f_equal. lia.
Qed.

Lemma drains_empty_the_ring_witness :
  exists w' tr p',
    drains cfg16 port_addr 4 (boot (mk_port 0 6 2 8)) = Ok tt w' tr /\
    ports w' !! port_addr = Some p' /\
    List.filter is_xmit_wrote tr =
      map pr_info_xmit [105; 106; 107; 108; 109; 110; 111; 112; 97; 98] /\
    icount_tx p' = 10 /\
    pending_at cfg16 w' port_addr = Some 0.
Proof.
  assert (Hp : points_to (boot (mk_port 0 6 2 8)) port_addr (mk_port 0 6 2 8))
    by concrete.
  assert (Hwf : wf_xmit cfg16 (xmit {| tty := Some tty0;
                  xmit := {| buf := ring16; head := 2; tail := 8 |} |}))
    by concrete.
  assert (Htx : 0 <= icount_tx (mk_port 0 6 2 8) < 2 ^ 32) by concrete.
  destruct (drains_empty_the_ring cfg16 _ port_addr 4 (mk_port 0 6 2 8) _ tty0
              Hp eq_refl eq_refl Hwf Htx eq_refl eq_refl)
    as (w' & tr & p' & Hrun & Hl & Hf & Hic & _ & Hz).
  exists w', tr, p'.
  split; [exact Hrun|]. split; [exact Hl|]. split; [exact Hf|].
  split; [exact Hic|]. apply Hz. vm_compute. discriminate.
Defined.

(** X6.  A pending x_char costs the payload exactly one call: of two calls
    in a row the first sends the x_char alone, the second then drains the
    ring as if nothing had happened, so that after both the counter is up
    by one plus the bytes drained and the x_char is written before any
    byte of the ring. *)
Theorem x_char_then_payload
    (cfg : kconfig) (w : world) (port : Z)
    (p : uart_port) (s : uart_state) (t : tty_struct) :
  points_to w port p -> x_char p <> 0 -> state p = Some s ->
  wf_xmit cfg (xmit s) ->
  tty s = Some t -> (stopped t || hw_stopped p)%bool = false ->
  let r := drain_len cfg p s in
  exists w' tr2 p',
    drains cfg port 2 w =
      Ok tt w'
         ([pr_enter_ev "tiny_tx_chars"; pr_info_x_char (x_char p)] ++ tr2) /\
    ports w' !! port = Some p' /\
    List.filter is_x_char_wrote tr2 = [] /\
    List.filter is_xmit_wrote tr2 =
      map pr_info_xmit (ring_bytes cfg (xmit s) (Z.to_nat r)) /\
    x_char p' = 0 /\
    icount_tx p' = u32 (icount_tx p + 1 + r) /\
    pending_at cfg w' port = Some (uart_circ_chars_pending cfg (xmit s) - r).
Proof.
  intros Hp Hx Hs Hwf Ht Hst r.
  pose proof Hwf as (Hk & Hh & Htl & Hl).
  pose proof (pending_range cfg (xmit s) Hk) as Hn.
  pose proof (xmit_size_pos cfg Hk) as Hsz.
  set (p1 := with_x_char (with_tx p (u32 (icount_tx p + 1))) 0).
  pose proof (tiny_tx_chars_x_char cfg w port p Hp Hx) as Hrun1. fold p1 in Hrun1.
  assert (Htx1 : 0 <= icount_tx p1 < 2 ^ 32)
    by (cbn; unfold u32; apply Z.mod_pos_bound; lia).
  destruct (tiny_tx_chars_step cfg (upd w port p1) port p1 s t
              (points_to_upd _ _ _ _ Hp) eq_refl Hs Hwf Htx1 Ht Hst)
    as (tr2 & Hrun2 & Hf2 & Hx2).
  change (drain_len cfg p1 s) with r in Hrun2, Hf2.
  rewrite upd_upd in Hrun2.
  assert (Hr : 0 <= r <= uart_circ_chars_pending cfg (xmit s))
    by (unfold r, drain_len; lia).
  destruct (ring_advance cfg _ _ Hwf Hr) as [_ Hn'].
  exists (upd w port (drain_port cfg p1 r)), tr2, (drain_port cfg p1 r).
  split.
  - cbn [drains]. rewrite (bind_Ok _ _ _ _ _ _ Hrun1).
    rewrite (bind_Ok _ _ _ _ _ _ Hrun2). cbn [ret]. now rewrite app_nil_r.
  - split; [apply lookup_insert_eq|].
    split; [exact Hx2|].
    split; [now rewrite Hf2, (sent_ring_bytes cfg _ _ Hsz Htl)|].
    split; [reflexivity|]. split.
    + cbn [icount_tx drain_port p1 with_x_char with_tx]. unfold u32.
      rewrite Zplus_mod_idemp_l. reflexivity.
    + unfold pending_at. cbn [ports upd set_ports].
      rewrite lookup_insert_eq.
      rewrite (drain_port_state cfg p1 r s Hs).
      cbn [xmit with_xmit]. now rewrite Hn'.
Qed.

Lemma x_char_then_payload_witness :
  exists w' tr2 p',
    drains cfg16 port_addr 2 (boot (mk_port 17 16 10 0)) =
      Ok tt w' ([pr_enter_ev "tiny_tx_chars"; pr_info_x_char 17] ++ tr2) /\
    ports w' !! port_addr = Some p' /\
    x_char p' = 0 /\ icount_tx p' = 9 /\
    pending_at cfg16 w' port_addr = Some 2.
Proof.
  assert (Hp : points_to (boot (mk_port 17 16 10 0)) port_addr
                 (mk_port 17 16 10 0)) by concrete.
  assert (Hx : x_char (mk_port 17 16 10 0) <> 0) by (vm_compute; discriminate).
  assert (Hwf : wf_xmit cfg16 (xmit {| tty := Some tty0;
                  xmit := {| buf := ring16; head := 10; tail := 0 |} |}))
    by concrete.
  destruct (x_char_then_payload cfg16 _ port_addr (mk_port 17 16 10 0) _ tty0
              Hp Hx eq_refl Hwf eq_refl eq_refl)
    as (w' & tr2 & p' & Hrun & Hl & _ & _ & Hxc & Hic & Hpend).
  exists w', tr2, p'.
  split; [exact Hrun|]. split; [exact Hl|]. split; [exact Hxc|].
  split; [exact Hic|exact Hpend].
Defined.

(** ** Further properties of the timer *)

(** X7.  Flow control stops transmission, not reception: a firing on an
    open port whose transmission is stopped still injects 't', flushes and
    re-arms, while the port, ring and counter included, stays exactly as it
    was. *)
Theorem firing_while_tx_stopped
    (cfg : kconfig) (w : world) (data : Z)
    (p : uart_port) (s : uart_state) (t : tty_struct) (tl : timer_list) :
  points_to w data p -> x_char p = 0 -> state p = Some s -> tty s = Some t ->
  uart_circ_empty (xmit s) = false ->
  (stopped t || hw_stopped p)%bool = true ->
  timer_at w (timer w) tl -> pending tl = false ->
  let expiry := ulong cfg (jiffies w + DELAY_TIME cfg) in
  tiny_timer cfg data w =
    Ok tt (updt w (timer w) (with_pending (with_expires tl expiry) true))
       [pr_enter_ev "tiny_timer";
        ev_tty_insert_flip_char (tty_port t) "t"%char 0;
        ev_tty_flip_buffer_push (tty_port t);
        ev_add_timer (timer w) expiry;
        pr_enter_ev "tiny_tx_chars"; pr_enter_ev "tiny_stop_tx"].
Proof.
  intros Hp Hx Hs Ht He Hst Htl Hpend expiry.
  rewrite (tiny_timer_live cfg w data p s t tl Hp Hs Ht Htl Hpend).
  fold expiry.
  assert (Hp1 : points_to
            (updt w (timer w) (with_pending (with_expires tl expiry) true))
            data p) by exact Hp.
  now rewrite (tiny_tx_chars_stopped cfg _ data p s t Hp1 Hx Hs He Ht Hst).
Qed.

Lemma firing_while_tx_stopped_witness :
  tiny_timer cfg16 port_addr (opened port_stopped) =
    Ok tt
       (updt (opened port_stopped) timer_addr
          {| data := port_addr; expires := 1400;
             function := Some fn_tiny_timer; pending := true |})
       [pr_enter_ev "tiny_timer";
        ev_tty_insert_flip_char 12288 "t"%char 0;
        ev_tty_flip_buffer_push 12288;
        ev_add_timer timer_addr 1400;
        pr_enter_ev "tiny_tx_chars"; pr_enter_ev "tiny_stop_tx"].
Proof.
  assert (Hp : points_to (opened port_stopped) port_addr port_stopped)
    by concrete.
  assert (Htl : timer_at (opened port_stopped) (timer (opened port_stopped))
                  idle_timer) by concrete.
  exact (firing_while_tx_stopped cfg16 (opened port_stopped) port_addr
           port_stopped _ _ idle_timer Hp eq_refl eq_refl eq_refl eq_refl
           eq_refl Htl eq_refl).
Defined.

Lemma tiny_startup_running_alloc cfg w port p a junk :
  points_to w port p -> live cfg p -> timer w = 0 -> a <> 0 ->
  exists w' tr,
    tiny_startup cfg (Some (a, junk)) port w = Ok 0 w' tr /\
    running cfg w' port.
Proof.
  intros Hp Hlive Ht Ha. eexists _, _.
  split; [exact (tiny_startup_alloc cfg w port a junk Ht Ha)|].
  exists p, (armed cfg port (jiffies w)).
  split; [exact Hp|]. split; [exact Hlive|].
  split; [split; [exact Ha|apply lookup_insert_eq]|].
  repeat split.
Qed.

(** X8.  The timer keeps itself going.  Take an expiry to be what the
    kernel's timer wheel does: unlink the queued timer and call
    timer->function(timer->data).  Then after a successful tiny_startup on
    an open port, any number of expiries in a row each inject exactly one
    character, and the timer is still queued for that port afterwards. *)
Theorem firings_after_start
    (cfg : kconfig) (w : world) (km : option (Z * timer_list)) (port : Z)
    (p : uart_port) (nows : list Z) :
  points_to w port p -> live cfg p ->
  ((exists tl, timer_at w (timer w) tl) \/
   (timer w = 0 /\ exists a junk, km = Some (a, junk) /\ a <> 0)) ->
  exists w1 tr1 w' tr,
    tiny_startup cfg km port w = Ok 0 w1 tr1 /\
    expirations cfg nows w1 = Ok tt w' tr /\
    count_ev is_inject tr = length nows /\
    running cfg w' port.
Proof.
  intros Hp Hlive Htimer.
  assert (Hstart : exists w1 tr1,
            tiny_startup cfg km port w = Ok 0 w1 tr1 /\ running cfg w1 port).
  { destruct Htimer as [[tl Htl]|(Ht & a & junk & -> & Ha)].
    - exact (tiny_startup_running cfg w km port p tl Hp Hlive Htl).
    - exact (tiny_startup_running_alloc cfg w port p a junk Hp Hlive Ht Ha). }
  destruct Hstart as (w1 & tr1 & Hrun1 & Hgo).
  destruct (expirations_inject cfg port nows w1 Hgo)
    as (w' & tr & Hexp & Hgo' & Hcnt).
  exists w1, tr1, w', tr. auto.
Qed.

Lemma firings_after_start_witness :
  exists w1 tr1 w' tr,
    tiny_startup cfg16 (Some (timer_addr, junk_timer)) port_addr scenario_world
      = Ok 0 w1 tr1 /\
    expirations cfg16 [1200; 1400; 1600] w1 = Ok tt w' tr /\
    count_ev is_inject tr = 3%nat /\
    running cfg16 w' port_addr.
Proof.
  assert (Hp : points_to scenario_world port_addr scenario_port) by concrete.
  assert (Hlive : live cfg16 scenario_port).
  { eexists _, tty0. split; [reflexivity|]. split; [reflexivity|concrete]. }
  apply (firings_after_start cfg16 scenario_world
           (Some (timer_addr, junk_timer)) port_addr scenario_port
           [1200; 1400; 1600] Hp Hlive).
  right. split; [reflexivity|].
  exists timer_addr, junk_timer. split; [reflexivity|].
  vm_compute. discriminate.
Defined.





(** ** Further properties of the life cycle *)

Lemma last_cons {A} (l : list A) : forall a d, List.last (a :: l) d = List.last l a.
Proof.
  induction l as [|b l IH]; intros a d; [reflexivity|].
  change (List.last (a :: b :: l) d) with (List.last (b :: l) d).
  now rewrite !IH.
Qed.

Lemma reopen_cycles_run cfg cs : forall w tl port0,
  timer_at w (timer w) tl ->
  exists tl' tr,
    reopen_cycles cfg cs w =
      Ok (map (fun _ => 0) cs) (updt w (timer w) tl') tr /\
    count_ev is_kmalloc tr = 0%nat /\
    count_ev is_kfree tr = 0%nat /\
    tl' = match cs with
          | [] => tl
          | _ => armed cfg (last_port cs port0) (jiffies w)
          end.
Proof.
  induction cs as [|[km port] rest IH]; intros w tl port0 Htl.
  - exists tl, []. rewrite (updt_same _ _ _ Htl). repeat split.
  - pose proof (tiny_shutdown_allocated w port tl Htl) as Hdown.
    set (wa := updt w (timer w) (with_pending tl false)) in *.
    assert (Hta : timer_at wa (timer wa) (with_pending tl false))
      by (apply timer_at_updt with (tl := tl); exact Htl).
    pose proof (tiny_startup_reuse cfg wa km port _ Hta) as Hup.
    set (wb := updt wa (timer wa) (armed cfg port (jiffies wa))) in *.
    assert (Htb : timer_at wb (timer wb) (armed cfg port (jiffies wa)))
      by (apply timer_at_updt with (tl := with_pending tl false); exact Hta).
    destruct (IH wb _ port Htb) as (tl' & tr & Hrest & Hkm & Hkf & Hlast).
    assert (Hw : updt wb (timer wb) tl' = updt w (timer w) tl').
    { unfold wb, wa, updt, set_timers. cbn [ports timers timer jiffies].
      now rewrite !insert_insert_eq. }
    exists tl', ([pr_enter_ev "tiny_shutdown"; ev_del_timer (timer w)] ++
                 [pr_enter_ev "tiny_startup"; ev_init_timer (timer wa);
                  ev_add_timer (timer wa)
                    (ulong cfg (jiffies wa + DELAY_TIME cfg))] ++ tr ++ []).
    split.
    + cbn [reopen_cycles map].
      rewrite (bind_Ok _ _ _ _ _ _ Hdown), (bind_Ok _ _ _ _ _ _ Hup).
      rewrite (bind_Ok _ _ _ _ _ _ Hrest). cbn [ret]. now rewrite Hw.
    + rewrite !count_ev_app, Hkm, Hkf. split; [reflexivity|].
      split; [reflexivity|].
      rewrite Hlast. unfold last_port. cbn [map snd]. rewrite last_cons.
      destruct rest as [|c rest']; reflexivity.
Qed.

(** X10.  Close/reopen cycles never allocate again.  Once the timer object
    exists, any number of tiny_shutdown / tiny_startup pairs, on whatever
    ports, all return 0, call neither kmalloc nor kfree, keep the global
    pointer and the ports as they are, and leave the one timer object
    queued for the port of the last start. *)
Theorem reopen_reuses_the_timer
    (cfg : kconfig) (w : world) (tl : timer_list)
    (cs : list (option (Z * timer_list) * Z)) (port0 : Z) :
  timer_at w (timer w) tl -> cs <> [] ->
  exists w' tr,
    reopen_cycles cfg cs w = Ok (map (fun _ => 0) cs) w' tr /\
    count_ev is_kmalloc tr = 0%nat /\
    count_ev is_kfree tr = 0%nat /\
    timer w' = timer w /\ ports w' = ports w /\
    timer_at w' (timer w) (armed cfg (last_port cs port0) (jiffies w)) /\
    forall t, t <> timer w -> timers w' !! t = timers w !! t.
Proof.
  intros Htl Hcs.
  destruct (reopen_cycles_run cfg cs w tl port0 Htl)
    as (tl' & tr & Hrun & Hkm & Hkf & Hlast).
  destruct cs as [|c cs']; [contradiction|]. subst tl'.
  eexists _, tr. split; [exact Hrun|].
  split; [exact Hkm|]. split; [exact Hkf|].
  split; [reflexivity|]. split; [reflexivity|].
  split; [now apply timer_at_updt with (tl := tl)|].
  intros t Ht. cbn [timers updt set_timers]. now apply lookup_insert_ne.
Qed.

Lemma reopen_reuses_the_timer_witness :
  exists w' tr,
    reopen_cycles cfg16 [(None, port_addr); (Some (16384, junk_timer), 20480)]
      (started scenario_port) = Ok [0; 0] w' tr /\
    count_ev is_kmalloc tr = 0%nat /\
    timer w' = timer_addr /\
    timer_at w' timer_addr (armed cfg16 20480 1200).
Proof.
  assert (Htl : timer_at (started scenario_port) (timer (started scenario_port))
                  (armed cfg16 port_addr 1200)) by concrete.
  destruct (reopen_reuses_the_timer cfg16 (started scenario_port)
              (armed cfg16 port_addr 1200)
              [(None, port_addr); (Some (16384, junk_timer), 20480)] 0 Htl
              ltac:(discriminate))
    as (w' & tr & Hrun & Hkm & _ & Ht & _ & Hat & _).
  exists w', tr.
  split; [exact Hrun|]. split; [exact Hkm|]. split; [exact Ht|exact Hat].
Defined.

(** X11.  A start that failed for lack of memory can simply be tried again:
    the failed call leaves the global pointer NULL, so the next call asks
    kmalloc once more and, given memory, arms the fresh object and returns
    0. *)
Theorem startup_retry_after_enomem
    (cfg : kconfig) (w : world) (port a : Z) (junk : timer_list) :
  timer w = 0 -> a <> 0 ->
  startup_twice cfg None (Some (a, junk)) port w =
    Ok (- ENOMEM, 0)
       (updt (allocated w a junk) a (armed cfg port (jiffies w)))
       [pr_enter_ev "tiny_startup"; ev_kmalloc 0;
        pr_enter_ev "tiny_startup"; ev_kmalloc a; ev_init_timer a;
        ev_add_timer a (ulong cfg (jiffies w + DELAY_TIME cfg))].
Proof.
  intros Ht Ha. unfold startup_twice.
  rewrite (bind_Ok _ _ _ _ _ _ (tiny_startup_enomem cfg w port Ht)).
  rewrite (bind_Ok _ _ _ _ _ _ (tiny_startup_alloc cfg w port a junk Ht Ha)).
  reflexivity.
Qed.

Lemma startup_retry_after_enomem_witness :
  startup_twice cfg16 None (Some (timer_addr, junk_timer)) port_addr
      scenario_world =
    Ok (-12, 0)
       (updt (allocated scenario_world timer_addr junk_timer) timer_addr
          (armed cfg16 port_addr 1000))
       [pr_enter_ev "tiny_startup"; ev_kmalloc 0;
        pr_enter_ev "tiny_startup"; ev_kmalloc timer_addr;
        ev_init_timer timer_addr; ev_add_timer timer_addr 1200].
Proof.
  apply (startup_retry_after_enomem cfg16 scenario_world port_addr timer_addr
           junk_timer); [reflexivity|vm_compute; discriminate].
Defined.


(** ** Module init, line settings and modem control *)

(** X13.  tiny_init is all or nothing.  It returns the first failing status
    (0 only if both registrations succeeded); uart_add_one_port is attempted
    only after uart_register_driver succeeded; and uart_unregister_driver is
    called exactly when the driver was registered but the port could not be
    added, so that a failed load leaves nothing registered. *)
Theorem tiny_init_all_or_nothing (reg add : Z) :
  fst (tiny_init reg add) = (if reg =? 0 then add else reg) /\
  (fst (tiny_init reg add) = 0 <-> reg = 0 /\ add = 0) /\
  In in_uart_register_driver (snd (tiny_init reg add)) /\
  (In in_uart_add_one_port (snd (tiny_init reg add)) <-> reg = 0) /\
  (In in_uart_unregister_driver (snd (tiny_init reg add))
     <-> reg = 0 /\ add <> 0).
Proof.
  unfold tiny_init.
  destruct (Z.eqb_spec reg 0) as [Hr|Hr]; cbn [negb fst snd].
  - destruct (Z.eqb_spec add 0) as [Ha|Ha]; cbn [negb app In];
      repeat split; intros; auto; try tauto; try lia;
      repeat match goal with
             | H : _ \/ _ |- _ => destruct H
             | H : _ /\ _ |- _ => destruct H
             end; try discriminate; try contradiction; try lia.
  - cbn [In]. repeat split; intros; auto; try tauto; try lia;
      repeat match goal with
             | H : _ \/ _ |- _ => destruct H
             | H : _ /\ _ |- _ => destruct H
             end; try discriminate; try contradiction; try lia.
Qed.

Lemma land_pow2_eqb a k :
  0 <= k -> (Z.land a (2 ^ k) =? 0) = negb (Z.testbit a k).
Proof.
  intros Hk.
  assert (H : Z.land a (2 ^ k) = if Z.testbit a k then 2 ^ k else 0).
  { apply Z.bits_inj'. intros n Hn.
    rewrite Z.land_spec, Z.pow2_bits_eqb by assumption.
    destruct (Z.eqb_spec k n) as [->|Hne].
    - destruct (Z.testbit a n) eqn:E; cbn.
      + now rewrite Z.pow2_bits_true.
      + now rewrite Z.bits_0.
    - rewrite andb_false_r.
      destruct (Z.testbit a k); [|now rewrite Z.bits_0].
      rewrite Z.pow2_bits_false; [reflexivity|assumption]. }
  rewrite H. destruct (Z.testbit a k); cbn [negb].
  - apply Z.eqb_neq. pose proof (Z.pow_pos_nonneg 2 k). lia.
  - reflexivity.
Qed.

(** X14.  tiny_set_termios decodes c_cflag bit by bit and does nothing
    else.  When PARENB, PARODD, CSTOPB and CRTSCTS are single-bit masks, it
    prints, in this order, one data-bits line (5, 6, 7 or 8), one parity
    line (none whenever the PARENB bit is clear, even with PARODD set;
    otherwise odd or even by the PARODD bit), one stop-bits line (2 iff the
    CSTOPB bit is set), one RTS/CTS line (enabled iff the CRTSCTS bit is
    set), then asks for a baud rate between 0 and uartclk / 16. *)
Theorem tiny_set_termios_decodes
    (tb : termbits) (uartclk cflag baud : Z) (i j k l : Z) :
  0 <= i -> 0 <= j -> 0 <= k -> 0 <= l ->
  PARENB tb = 2 ^ i -> PARODD tb = 2 ^ j ->
  CSTOPB tb = 2 ^ k -> CRTSCTS tb = 2 ^ l ->
  exists db last,
    In db [5; 6; 7; 8] /\
    tiny_set_termios tb uartclk cflag baud =
      [st_pr_enter "tiny_set_termios";
       st_data_bits db;
       st_parity (if Z.testbit cflag i
                  then if Z.testbit cflag j then parity_odd else parity_even
                  else parity_none);
       st_stop_bits (if Z.testbit cflag k then 2 else 1);
       st_rts_cts (Z.testbit cflag l);
       st_uart_get_baud_rate 0 (uartclk / 16);
       last].
Proof.
  intros Hi Hj Hk Hl Epb Epo Est Ecr.
  unfold tiny_set_termios. rewrite Epb, Epo, Est, Ecr.
  rewrite !land_pow2_eqb, !negb_involutive by assumption.
  exists (if Z.land cflag (CSIZE tb) =? CS5 tb then 5
          else if Z.land cflag (CSIZE tb) =? CS6 tb then 6
          else if Z.land cflag (CSIZE tb) =? CS7 tb then 7 else 8),
         (if baud =? 0 then st_warn_baud_0 else st_uart_get_divisor baud).
  set (sz := Z.land cflag (CSIZE tb)).
  split.
  - destruct (sz =? CS5 tb); [cbn; tauto|].
    destruct (sz =? CS6 tb); [cbn; tauto|].
    destruct (sz =? CS7 tb); cbn; tauto.
  - destruct (sz =? CS5 tb), (sz =? CS6 tb), (sz =? CS7 tb),
      (Z.testbit cflag i), (Z.testbit cflag j), (Z.testbit cflag k),
      (Z.testbit cflag l), (baud =? 0); reflexivity.
Qed.

Lemma tiny_set_termios_decodes_witness :
  exists db last,
    In db [5; 6; 7; 8] /\
    tiny_set_termios generic_termbits TINY_CLOCK 560 9600 =
      [st_pr_enter "tiny_set_termios";
       st_data_bits db;
       st_parity parity_none;
       st_stop_bits 1;
       st_rts_cts false;
       st_uart_get_baud_rate 0 229500;
       last].
Proof.
  exact (tiny_set_termios_decodes generic_termbits TINY_CLOCK 560 9600 8 9 6 31
           ltac:(lia) ltac:(lia) ltac:(lia) ltac:(lia)
           eq_refl eq_refl eq_refl eq_refl).
Defined.

Ltac in_block H :=
  repeat match type of H with
         | context [if ?c then _ else _] => destruct c
         end;
  cbn in H;
  repeat (destruct H as [H|H]; [discriminate|]);
  contradiction.

(** X15.  tiny_set_termios never asks for the divisor of a zero baud rate:
    uart_get_divisor is called at most once, only with the non-zero rate
    uart_get_baud_rate returned, and when that rate is 0 the function warns
    instead. *)
Theorem tiny_set_termios_divisor
    (tb : termbits) (uartclk cflag baud : Z) :
  (forall b, In (st_uart_get_divisor b) (tiny_set_termios tb uartclk cflag baud)
             -> b = baud /\ b <> 0) /\
  length (List.filter is_divisor (tiny_set_termios tb uartclk cflag baud))
    = (if baud =? 0 then 0%nat else 1%nat) /\
  (In st_warn_baud_0 (tiny_set_termios tb uartclk cflag baud) <-> baud = 0).
Proof.
  unfold tiny_set_termios.
  set (sz := Z.land cflag (CSIZE tb)).
  split; [|split].
  - intros b H. rewrite !in_app_iff in H.
    destruct H as [H|[H|[H|[H|[H|[H|H]]]]]]; [in_block H ..|].
    destruct (Z.eqb_spec baud 0) as [Hb|Hb]; cbn in H;
      destruct H as [H|[]]; [discriminate|].
    inversion H; subst. auto.
  - rewrite !List.filter_app, !length_app.
    repeat match goal with
           | |- context [if ?c then _ else _] => destruct c
           end; reflexivity.
  - split; intros H.
    + rewrite !in_app_iff in H.
      destruct H as [H|[H|[H|[H|[H|[H|H]]]]]]; [in_block H ..|].
      destruct (Z.eqb_spec baud 0) as [Hb|Hb]; [exact Hb|].
      cbn in H. destruct H as [H|[]]. discriminate.
    + subst baud. rewrite !in_app_iff. do 6 right. cbn. now left.
Qed.

(** X16.  Modem control is write-only: whatever lines tiny_set_mctrl is
    asked to set, on whatever port, tiny_get_mctrl right after reports 0
    (no CTS, DSR, carrier or ring), and neither call touches kernel
    memory. *)
Theorem mctrl_is_not_read_back (port mctrl : Z) (w : world) :
  (tiny_set_mctrl port mctrl >> tiny_get_mctrl port) w =
    Ok 0 w [pr_enter_ev "tiny_set_mctrl"; pr_enter_ev "tiny_get_mctrl"].
Proof.
  unfold tiny_set_mctrl, tiny_get_mctrl, pr_enter.
  rewrite (bind_Ok _ _ _ _ _ _ (emit_ok _ _)).
  rewrite (bind_Ok _ _ _ _ _ _ (emit_ok _ _)).
  reflexivity.
Qed.

(** ** The simulated line end to end *)

(* one expiry on an open port whose transmission is running *)
Lemma expire_timer_drains cfg w port p s t tl now :
  points_to w port p -> x_char p = 0 -> state p = Some s ->
  wf_xmit cfg (xmit s) -> 0 <= icount_tx p < 2 ^ 32 ->
  tty s = Some t -> (stopped t || hw_stopped p)%bool = false ->
  timer_at w (timer w) tl -> pending tl = true ->
  function tl = Some fn_tiny_timer -> data tl = port ->
  exists w' tr tl',
    expire_timer cfg now w = Ok tt w' tr /\
    points_to w' port (drain_port cfg p (drain_len cfg p s)) /\
    timer_at w' (timer w') tl' /\ pending tl' = true /\
    function tl' = Some fn_tiny_timer /\ data tl' = port /\
    count_ev is_inject tr = 1%nat /\
    List.filter is_xmit_wrote tr =
      map pr_info_xmit (sent cfg (xmit s) (Z.to_nat (drain_len cfg p s))).
Proof.
  intros Hp Hx Hs Hwf Htx Ht Hst Htl Hpend Hfn Hdata.
  set (w0 := set_jiffies w now).
  assert (Htl0 : timer_at w0 (timer w0) tl) by exact Htl.
  set (w1 := updt w0 (timer w0) (with_pending tl false)).
  assert (Htl1 : timer_at w1 (timer w1) (with_pending tl false))
    by (apply timer_at_updt with (tl := tl); exact Htl0).
  assert (Hp1 : points_to w1 port p) by exact Hp.
  pose proof (tiny_timer_live cfg w1 port p s t _ Hp1 Hs Ht Htl1 eq_refl) as Hfire.
  set (queued := with_pending
         (with_expires (with_pending tl false)
            (ulong cfg (jiffies w1 + DELAY_TIME cfg))) true) in *.
  set (w2 := updt w1 (timer w1) queued) in *.
  assert (Hp2 : points_to w2 port p) by exact Hp.
  destruct (tiny_tx_chars_step cfg w2 port p s t Hp2 Hx Hs Hwf Htx Ht Hst)
    as (tr & Hrun & Hf & _).
  destruct (tiny_tx_chars_live cfg w2 port p s t Hp2 Hs Ht Hwf)
    as (p' & tr' & Hrun' & Htr & _).
  assert (tr' = tr) by congruence. subst tr'.
  rewrite Hrun in Hfire.
  exists (upd w2 port (drain_port cfg p (drain_len cfg p s))),
    (rx_prefix cfg w1 (tty_port t) ++ tr), queued.
  split.
  - unfold expire_timer.
    rewrite (bind_Ok_nil _ _ _ _ _ (get_ok w)).
    rewrite (bind_Ok_nil _ _ _ _ _ (read_timer_ok _ _ _ Htl)).
    rewrite Hpend.
    rewrite (bind_Ok_nil _ _ _ _ _ (eq_refl : put w0 w = Ok tt w0 [])).
    rewrite (bind_Ok_nil _ _ _ _ _ (write_timer_ok _ _ _ _ Htl0)).
    rewrite Hfn, Hdata. exact Hfire.
  - split; [apply points_to_upd with (p := p); exact Hp2|].
    split; [apply timer_at_upd, timer_at_updt with (tl := with_pending tl false);
            exact Htl1|].
    split; [reflexivity|]. split; [exact Hfn|]. split; [exact Hdata|].
    split.
    + rewrite count_ev_app, (count_ev_tx_event is_inject tr);
        [reflexivity| |exact Htr].
      now intros [].
    + rewrite List.filter_app. exact Hf.
Qed.

Lemma expirations_drain cfg port t nows : forall w p s tl,
  points_to w port p -> x_char p = 0 -> state p = Some s ->
  wf_xmit cfg (xmit s) -> 0 <= icount_tx p < 2 ^ 32 ->
  tty s = Some t -> (stopped t || hw_stopped p)%bool = false ->
  timer_at w (timer w) tl -> pending tl = true ->
  function tl = Some fn_tiny_timer -> data tl = port ->
  exists w' tr,
    expirations cfg nows w = Ok tt w' tr /\
    points_to w' port
      (drain_port cfg p
         (Z.min (uart_circ_chars_pending cfg (xmit s))
                (Z.of_nat (length nows) * Z.max 1 (Z.shiftr (fifosize p) 1)))) /\
    count_ev is_inject tr = length nows /\
    List.filter is_xmit_wrote tr =
      map pr_info_xmit
          (sent cfg (xmit s)
             (Z.to_nat
                (Z.min (uart_circ_chars_pending cfg (xmit s))
                       (Z.of_nat (length nows)
                        * Z.max 1 (Z.shiftr (fifosize p) 1))))).
Proof.
  induction nows as [|now rest IH];
    intros w p s tl Hp Hx Hs Hwf Htx Ht Hst Htl Hpend Hfn Hdata;
    pose proof Hwf as (Hk & Hh & Htail & Hl);
    pose proof (pending_range cfg (xmit s) Hk) as Hn;
    pose proof (xmit_size_pos cfg Hk) as Hsz.
  - exists w, []. cbn [length]. replace (Z.min _ _) with 0 by lia.
    rewrite (drain_port_0 cfg p s Hs Hwf Htx).
    split; [reflexivity|]. split; [exact Hp|]. split; reflexivity.
  - destruct (expire_timer_drains cfg w port p s t tl now
                Hp Hx Hs Hwf Htx Ht Hst Htl Hpend Hfn Hdata)
      as (w1 & tr1 & tl1 & Hrun1 & Hp1 & Htl1 & Hpend1 & Hfn1 & Hdata1
          & Hin1 & Hf1).
    set (n := uart_circ_chars_pending cfg (xmit s)) in *.
    set (q := Z.max 1 (Z.shiftr (fifosize p) 1)) in *.
    assert (Hr1 : drain_len cfg p s = Z.min n q) by reflexivity.
    rewrite Hr1 in *.
    set (r1 := Z.min n q) in *.
    assert (Hr : 0 <= r1 <= n) by lia.
    destruct (ring_advance cfg _ _ Hwf Hr) as [Hwf1 Hn1]. fold n in Hn1.
    set (p1 := drain_port cfg p r1) in *.
    set (s1 := with_xmit s (with_tail (xmit s)
                 ((tail (xmit s) + r1) mod UART_XMIT_SIZE cfg))) in *.
    assert (Hs1 : state p1 = Some s1) by exact (drain_port_state cfg p r1 s Hs).
    assert (Htx1 : 0 <= icount_tx p1 < 2 ^ 32)
      by (cbn; unfold u32; apply Z.mod_pos_bound; lia).
    destruct (IH w1 p1 s1 tl1 Hp1 Hx Hs1 Hwf1 Htx1 Ht Hst
                Htl1 Hpend1 Hfn1 Hdata1)
      as (w2 & tr2 & Hrun2 & Hp2 & Hin2 & Hf2).
    cbn [xmit with_xmit s1] in Hp2, Hf2. rewrite Hn1 in Hp2, Hf2.
    change (fifosize p1) with (fifosize p) in Hp2, Hf2. fold q in Hp2, Hf2.
    set (r2 := Z.min (n - r1) (Z.of_nat (length rest) * q)) in *.
    assert (Hsum : Z.min n (Z.of_nat (length (now :: rest)) * q) = r1 + r2)
      by (cbn [length]; lia).
    exists w2, (tr1 ++ tr2). split.
    + cbn [expirations]. now rewrite (bind_Ok _ _ _ _ _ _ Hrun1), Hrun2.
    + split.
      * rewrite Hsum. unfold p1 in Hp2.
        now rewrite drain_port_add in Hp2 by assumption.
      * split; [rewrite count_ev_app, Hin1, Hin2; reflexivity|].
        rewrite List.filter_app, Hf1, Hf2, Hsum, <- map_app.
        replace (Z.to_nat (r1 + r2)) with (Z.to_nat r1 + Z.to_nat r2)%nat by lia.
        rewrite (sent_app cfg (Z.to_nat r1) (xmit s) (Z.to_nat r2) Hsz Htail).
        rewrite Z2Nat.id by lia. reflexivity.
Qed.

(** X17.  The simulated line, end to end.  With the timer queued for an
    open port whose transmission is running, no x_char pending and nothing
    queued in between, [k] expiries (an expiry taken as for X8) inject [k]
    characters and transmit min(pending, k * max(1, fifosize >> 1)) bytes of
    the ring, oldest first; what is left pending is the rest. *)
Theorem expiries_inject_and_drain
    (cfg : kconfig) (w : world) (port : Z) (nows : list Z)
    (p : uart_port) (s : uart_state) (t : tty_struct) (tl : timer_list) :
  points_to w port p -> x_char p = 0 -> state p = Some s ->
  wf_xmit cfg (xmit s) -> 0 <= icount_tx p < 2 ^ 32 ->
  tty s = Some t -> (stopped t || hw_stopped p)%bool = false ->
  timer_at w (timer w) tl -> pending tl = true ->
  function tl = Some fn_tiny_timer -> data tl = port ->
  let n := uart_circ_chars_pending cfg (xmit s) in
  let r := Z.min n (Z.of_nat (length nows)
                    * Z.max 1 (Z.shiftr (fifosize p) 1)) in
  exists w' tr p',
    expirations cfg nows w = Ok tt w' tr /\
    ports w' !! port = Some p' /\
    count_ev is_inject tr = length nows /\
    List.filter is_xmit_wrote tr =
      map pr_info_xmit (ring_bytes cfg (xmit s) (Z.to_nat r)) /\
    icount_tx p' = u32 (icount_tx p + r) /\
    pending_at cfg w' port = Some (n - r).
Proof.
  intros Hp Hx Hs Hwf Htx Ht Hst Htl Hpend Hfn Hdata n r.
  pose proof Hwf as (Hk & Hh & Htail & Hl).
  pose proof (pending_range cfg (xmit s) Hk) as Hn.
  pose proof (xmit_size_pos cfg Hk) as Hsz.
  destruct (expirations_drain cfg port t nows w p s tl
              Hp Hx Hs Hwf Htx Ht Hst Htl Hpend Hfn Hdata)
    as (w' & tr & Hrun & [_ Hp'] & Hin & Hf).
  fold n r in Hp', Hf.
  assert (Hr : 0 <= r <= n) by lia.
  destruct (ring_advance cfg _ _ Hwf Hr) as [_ Hn']. fold n in Hn'.
  exists w', tr, (drain_port cfg p r).
  split; [exact Hrun|]. split; [exact Hp'|]. split; [exact Hin|].
  split; [now rewrite Hf, (sent_ring_bytes cfg _ _ Hsz Htail)|].
  split; [reflexivity|].
  unfold pending_at. rewrite Hp', (drain_port_state cfg p r s Hs).
  cbn [xmit with_xmit]. now rewrite Hn'.
Qed.

Lemma expiries_inject_and_drain_witness :
  exists w' tr p',
    expirations cfg16 [1400; 1600] (started (mk_port 0 6 2 8)) = Ok tt w' tr /\
    ports w' !! port_addr = Some p' /\
    count_ev is_inject tr = 2%nat /\
    List.filter is_xmit_wrote tr =
      map pr_info_xmit [105; 106; 107; 108; 109; 110] /\
    icount_tx p' = 6 /\
    pending_at cfg16 w' port_addr = Some 4.
Proof.
  assert (Hp : points_to (started (mk_port 0 6 2 8)) port_addr (mk_port 0 6 2 8))
    by concrete.
  assert (Hwf : wf_xmit cfg16 (xmit {| tty := Some tty0;
                  xmit := {| buf := ring16; head := 2; tail := 8 |} |}))
    by concrete.
  assert (Htx : 0 <= icount_tx (mk_port 0 6 2 8) < 2 ^ 32) by concrete.
  assert (Htl : timer_at (started (mk_port 0 6 2 8))
                  (timer (started (mk_port 0 6 2 8)))
                  (armed cfg16 port_addr 1200)) by concrete.
  exact (expiries_inject_and_drain cfg16 _ port_addr [1400; 1600]
           (mk_port 0 6 2 8) _ tty0 _ Hp eq_refl eq_refl Hwf Htx eq_refl eq_refl
           Htl eq_refl eq_refl eq_refl).
Defined.

Lemma bind_Oops {A B} (m : M A) (f : A -> M B) w e :
  m w = Oops e -> bind m f w = Oops e.
Proof. intros H. unfold bind. now rewrite H. Qed.

Lemma read_xmit_no_state w port p :
  points_to w port p -> state p = None -> read_xmit port w = Oops null_deref.
Proof.
  intros Hp Hs. unfold read_xmit. apply bind_Oops.
  unfold read_state.
  rewrite (bind_Ok_nil _ _ _ _ _ (read_port_ok _ _ _ Hp)).
  now rewrite Hs.
Qed.

(** X18.  The drain trusts its caller.  Handed a NULL port, or a port with
    no state attached and no x_char pending, tiny_tx_chars dereferences
    NULL; with an x_char pending it never looks at the state and returns
    normally.  The checks that keep a firing safe are those of tiny_timer. *)
Theorem tiny_tx_chars_unchecked (cfg : kconfig) (w : world) (port : Z)
    (p : uart_port) :
  tiny_tx_chars cfg 0 w = Oops null_deref /\
  (points_to w port p -> state p = None ->
   tiny_tx_chars cfg port w =
     if x_char p =? 0 then Oops null_deref
     else Ok tt (upd w port (with_x_char (with_tx p (u32 (icount_tx p + 1))) 0))
             [pr_enter_ev "tiny_tx_chars"; pr_info_x_char (x_char p)]) /\
  (points_to w port p -> state p = None ->
   tiny_timer cfg port w = Ok tt w [pr_enter_ev "tiny_timer"]).
Proof.
  split; [reflexivity|]. split.
  - intros Hp Hs. destruct (Z.eqb_spec (x_char p) 0) as [Hx|Hx].
    + unfold tiny_tx_chars.
      rewrite (bind_Ok_nil _ _ _ _ _ (read_port_ok _ _ _ Hp)).
      unfold pr_enter. rewrite (bind_Ok _ _ _ _ _ _ (emit_ok _ _)).
      rewrite (bind_Ok_nil _ _ _ _ _ (read_port_ok _ _ _ Hp)).
      rewrite Hx. cbn [Z.eqb negb].
      rewrite (bind_Oops _ _ _ _ (read_xmit_no_state w port p Hp Hs)).
      reflexivity.
    + exact (tiny_tx_chars_x_char cfg w port p Hp Hx).
  - intros Hp Hs. exact (tiny_timer_no_state cfg w port p Hp Hs).
Qed.

Lemma tiny_tx_chars_unchecked_witness :
  tiny_tx_chars cfg16 port_addr (opened port_no_state) = Oops null_deref /\
  tiny_timer cfg16 port_addr (opened port_no_state) =
    Ok tt (opened port_no_state) [pr_enter_ev "tiny_timer"].
Proof.
  assert (Hp : points_to (opened port_no_state) port_addr port_no_state)
    by concrete.
  destruct (tiny_tx_chars_unchecked cfg16 (opened port_no_state) port_addr
              port_no_state) as (_ & Hdrain & Hfire).
  split; [exact (Hdrain Hp eq_refl)|exact (Hfire Hp eq_refl)].
Defined.
